(** * maghpy build_module.py: file collection, build pipeline and settings bootstrap

    A shallow embedding of [src/build_module.py] (classes [Compiler] and
    [Application]) together with the properties of its behaviour.

    - Paths are lists of components ([os.path.join p name] is [p ++ [name]]).
    - The file system is a tree of named entries; a directory keeps its
      entries in listing order.
    - Effectful methods are functions in a state-and-exception monad over a
      [world] (file system, console, spawned commands).
    - The compiler ([clr.CompileModules]), the JSON library and
      [subprocess.call] are parameters of the model.
    - [Application.kill_rhino] only shells out to [taskkill] and is left out. *)

From Stdlib Require Import List String Ascii Bool Arith ZArith Lia DecimalString.
Import ListNotations.
Open Scope string_scope.
Open Scope list_scope.
Open Scope nat_scope.

(** ** Python string helpers *)

Module PyStr.

(** [c.lower()] on one character: the ASCII capitals are folded. *)
Definition lower_ascii (c : ascii) : ascii :=
  let n := nat_of_ascii c in
  if (65 <=? n) && (n <=? 90) then ascii_of_nat (n + 32) else c.

(** [s.lower()] *)
Fixpoint lower (s : string) : string :=
  match s with
  | EmptyString => EmptyString
  | String c s' => String (lower_ascii c) (lower s')
  end.

(** [s.endswith(suffix)] *)
Definition endswith (s suffix : string) : bool :=
  let n := String.length s in
  let m := String.length suffix in
  (m <=? n) && String.eqb (substring (n - m) m s) suffix.

(** [x in t] for a tuple of strings. *)
Fixpoint contains (t : list string) (x : string) : bool :=
  match t with
  | [] => false
  | y :: t' => String.eqb x y || contains t' x
  end.

(** Truthiness of a string: [if s:] *)
Definition truthy (s : string) : bool :=
  match s with EmptyString => false | _ => true end.

End PyStr.

(** ** Paths and the file-system tree *)

Definition path := list string.

(** [os.path.join(p, name)] for a [name] without separator. *)
Definition path_join (p : path) (name : string) : path := p ++ [name].

(** [os.path.dirname(p)] *)
Definition dirname (p : path) : path := removelast p.

(** [os.path.basename(p)] *)
Definition basename (p : path) : string := last p "".

#[local] Set Warnings "-register-all".

Inductive node : Type :=
| File (content : string)
| Dir (entries : list (string * node)).

Definition is_dir (n : node) : bool :=
  match n with Dir _ => true | File _ => false end.

Definition is_file (n : node) : bool :=
  match n with File _ => true | Dir _ => false end.

(** First entry called [name] in a directory listing (or in a dict kept as
    an association list). *)
Fixpoint assoc {A : Type} (name : string) (es : list (string * A)) : option A :=
  match es with
  | [] => None
  | (k, v) :: es' => if String.eqb name k then Some v else assoc name es'
  end.

(** Resolution of a path from the root of the tree. *)
Fixpoint lookup (fs : node) (p : path) : option node :=
  match p with
  | [] => Some fs
  | c :: p' =>
      match fs with
      | Dir es => match assoc c es with
                  | Some child => lookup child p'
                  | None => None
                  end
      | File _ => None
      end
  end.

(** [os.path.exists], [os.path.isdir], [os.path.isfile] *)
Definition path_exists (fs : node) (p : path) : bool :=
  match lookup fs p with Some _ => true | None => false end.

Definition isdir (fs : node) (p : path) : bool :=
  match lookup fs p with Some n => is_dir n | None => false end.

Definition isfile (fs : node) (p : path) : bool :=
  match lookup fs p with Some n => is_file n | None => false end.

(** Names of a directory, in listing order; [None] when [p] is not a
    directory ([os.listdir] raises). *)
Definition listdir (fs : node) (p : path) : option (list string) :=
  match lookup fs p with
  | Some (Dir es) => Some (map fst es)
  | _ => None
  end.

(** Entry names are unique inside every directory of the tree. *)
Fixpoint names_unique (l : list string) : bool :=
  match l with
  | [] => true
  | x :: l' => negb (PyStr.contains l' x) && names_unique l'
  end.

Fixpoint wf (n : node) : bool :=
  match n with
  | File _ => true
  | Dir es =>
      names_unique (map fst es) &&
      (fix all (l : list (string * node)) : bool :=
         match l with
         | [] => true
         | (_, child) :: l' => wf child && all l'
         end) es
  end.

(** [p] is a prefix of [q]: [q] is [p] itself or lies beneath it. *)
Fixpoint prefix_of (p q : path) : bool :=
  match p, q with
  | [], _ => true
  | _ :: _, [] => false
  | a :: p', b :: q' => String.eqb a b && prefix_of p' q'
  end.

(** Neither path lies at or beneath the other. *)
Definition disjoint (p q : path) : bool :=
  negb (prefix_of p q) && negb (prefix_of q p).

(** Replace the first entry called [name], or add it at the end. *)
Fixpoint set_entry (name : string) (v : node) (es : list (string * node))
  : list (string * node) :=
  match es with
  | [] => [(name, v)]
  | (k, x) :: es' =>
      if String.eqb name k then (k, v) :: es' else (k, x) :: set_entry name v es'
  end.

(** Drop every entry called [name]. *)
Fixpoint del_entry (name : string) (es : list (string * node))
  : list (string * node) :=
  match es with
  | [] => []
  | (k, x) :: es' =>
      if String.eqb name k then del_entry name es' else (k, x) :: del_entry name es'
  end.

(** Put [n] at [p], creating the missing directories on the way; [None]
    when a proper prefix of [p] is a regular file. *)
Fixpoint install (fs : node) (p : path) (n : node) : option node :=
  match p with
  | [] => Some n
  | c :: p' =>
      match fs with
      | File _ => None
      | Dir es =>
          let child := match assoc c es with
                       | Some x => x
                       | None => Dir []
                       end in
          match install child p' n with
          | Some child' => Some (Dir (set_entry c child' es))
          | None => None
          end
      end
  end.

(** Remove the entry at [p]; [None] when there is none (or [p] is the root). *)
Fixpoint remove (fs : node) (p : path) : option node :=
  match p with
  | [] => None
  | c :: p' =>
      match fs with
      | File _ => None
      | Dir es =>
          match assoc c es with
          | None => None
          | Some child =>
              match p' with
              | [] => Some (Dir (del_entry c es))
              | _ :: _ =>
                  match remove child p' with
                  | Some child' => Some (Dir (set_entry c child' es))
                  | None => None
                  end
              end
          end
      end
  end.

(** ** Exceptions and results *)

Inductive exn : Type :=
| ImportError (msg : string)
| KeyError (key : string)
| TypeError (msg : string)
| ValueError (msg : string)
| OSError (msg : string)              (* also IOError and shutil.Error *)
| DistutilsFileError (msg : string)
| ToolchainError (msg : string)       (* any other Exception of the compiler *)
| KeyboardInterrupt.                  (* a BaseException that is no Exception *)

(** [isinstance(e, ImportError)] *)
Definition is_ImportError (e : exn) : bool :=
  match e with ImportError _ => true | _ => false end.

(** [isinstance(e, Exception)] *)
Definition is_Exception (e : exn) : bool :=
  match e with KeyboardInterrupt => false | _ => true end.

(** [str(ex)] *)
Definition exn_str (e : exn) : string :=
  match e with
  | ImportError m | TypeError m | ValueError m | OSError m
  | DistutilsFileError m | ToolchainError m => m
  | KeyError k => "'" ++ k ++ "'"
  | KeyboardInterrupt => ""
  end.

Definition exn_class (e : exn) : string :=
  match e with
  | ImportError _ => "ImportError"
  | KeyError _ => "KeyError"
  | TypeError _ => "TypeError"
  | ValueError _ => "ValueError"
  | OSError _ => "OSError"
  | DistutilsFileError _ => "DistutilsFileError"
  | ToolchainError _ => "Exception"
  | KeyboardInterrupt => "KeyboardInterrupt"
  end.

Inductive result (A : Type) : Type :=
| Ok (a : A)
| Raise (e : exn).
Arguments Ok {A} a.
Arguments Raise {A} e.

(** What a method hands back to its caller. *)
Inductive pyval : Type :=
| PyNone
| PyBool (b : bool)
| PyInt (n : Z).

(** ** File-system calls of [os], [shutil] and [distutils] on the tree *)

Fixpoint path_eqb (p q : path) : bool :=
  match p, q with
  | [], [] => true
  | a :: p', b :: q' => String.eqb a b && path_eqb p' q'
  | _, _ => false
  end.

(** [open(p, 'w')] followed by a write of [content]: the parent must be a
    directory and [p] itself must not be one. *)
Definition write_file (fs : node) (p : path) (content : string) : result node :=
  match p with
  | [] => Raise (OSError "Is a directory")
  | _ :: _ =>
      if isdir fs (dirname p) && negb (isdir fs p)
      then match install fs p (File content) with
           | Some fs' => Ok fs'
           | None => Raise (OSError "No such file or directory")
           end
      else Raise (OSError "No such file or directory")
  end.

(** [open(p, 'r').read()] *)
Definition read_file (fs : node) (p : path) : result string :=
  match lookup fs p with
  | Some (File content) => Ok content
  | _ => Raise (OSError "No such file or directory")
  end.

(** [os.makedirs(p)]: creates [p] and the missing directories above it;
    fails when [p] exists or a prefix of it is a regular file. *)
Definition makedirs (fs : node) (p : path) : result node :=
  if path_exists fs p then Raise (OSError "File exists")
  else match install fs p (Dir []) with
       | Some fs' => Ok fs'
       | None => Raise (OSError "Not a directory")
       end.

(** [shutil.copy2(src, dst)]: [dst] may be a directory, the copy then keeps
    the base name of [src]; copying a file onto itself is an error. *)
Definition copy2 (fs : node) (src dst : path) : result node :=
  let dst' := if isdir fs dst then path_join dst (basename src) else dst in
  if path_eqb src dst' && path_exists fs src
  then Raise (OSError "are the same file")
  else match read_file fs src with
       | Ok content => write_file fs dst' content
       | Raise e => Raise e
       end.

(** [distutils.file_util.copy_file] of a file with [content] called [name]
    onto what the destination directory holds under that name. *)
Definition copy_file_node (content name : string) (dst : option node)
  : result node :=
  match dst with
  | Some (Dir sub) =>
      match assoc name sub with
      | Some (Dir _) => Raise (OSError "Is a directory")
      | _ => Ok (Dir (set_entry name (File content) sub))
      end
  | _ => Ok (File content)
  end.

(** [distutils.dir_util.copy_tree(src, dst)] on nodes: [dst] is what the
    destination path holds.  The source listing is read, the destination
    directory is made when missing ([mkpath]), and every entry is copied
    over, directories recursively, into what is already there. *)
Fixpoint copy_tree_node (src : node) (dst : option node) : result node :=
  match src with
  | File _ => Raise (DistutilsFileError "cannot copy tree: not a directory")
  | Dir ses =>
      match dst with
      | Some (File _) => Raise (DistutilsFileError "could not create: File exists")
      | _ =>
          let des := match dst with Some (Dir l) => l | _ => [] end in
          (fix loop (l : list (string * node)) (acc : list (string * node))
             : result node :=
             match l with
             | [] => Ok (Dir acc)
             | (n, child) :: l' =>
                 match (match child with
                        | Dir _ => copy_tree_node child (assoc n acc)
                        | File content => copy_file_node content n (assoc n acc)
                        end) with
                 | Ok new => loop l' (set_entry n new acc)
                 | Raise e => Raise e
                 end
             end) ses des
      end
  end.

(** [copy_tree] between two paths of the tree, neither beneath the other. *)
Definition copy_tree (fs : node) (src dst : path) : result node :=
  match lookup fs src with
  | Some (Dir ses) =>
      match copy_tree_node (Dir ses) (lookup fs dst) with
      | Ok n =>
          match install fs dst n with
          | Some fs' => Ok fs'
          | None => Raise (DistutilsFileError "could not create: Not a directory")
          end
      | Raise e => Raise e
      end
  | _ => Raise (DistutilsFileError "cannot copy tree: not a directory")
  end.

(** The loop of [copy_tree_node] over the source listing, by itself. *)
Fixpoint copy_entries (l : list (string * node)) (acc : list (string * node))
  : result node :=
  match l with
  | [] => Ok (Dir acc)
  | (n, child) :: l' =>
      match (match child with
             | Dir _ => copy_tree_node child (assoc n acc)
             | File content => copy_file_node content n (assoc n acc)
             end) with
      | Ok new => copy_entries l' (set_entry n new acc)
      | Raise e => Raise e
      end
  end.

(** [shutil.rmtree(p)] *)
Definition rmtree (fs : node) (p : path) : result node :=
  if isdir fs p
  then match remove fs p with
       | Some fs' => Ok fs'
       | None => Raise (OSError "cannot remove")
       end
  else Raise (OSError "No such directory").

(** ** Values loaded from the settings file *)

Inductive json : Type :=
| JNull
| JBool (b : bool)
| JNum (n : Z)
| JStr (s : string)
| JArr (items : list json)
| JObj (members : list (string * json)).

(** [bool(v)] *)
Definition truthy (v : json) : bool :=
  match v with
  | JNull => false
  | JBool b => b
  | JNum n => negb (Z.eqb n 0)
  | JStr s => PyStr.truthy s
  | JArr items => match items with [] => false | _ => true end
  | JObj members => match members with [] => false | _ => true end
  end.

(** [v[key]] for a string [key] *)
Definition subscript (v : json) (key : string) : result json :=
  match v with
  | JObj members =>
      match assoc key members with
      | Some x => Ok x
      | None => Raise (KeyError key)
      end
  | JArr _ | JStr _ => Raise (TypeError "indices must be integers")
  | _ => Raise (TypeError "object is not subscriptable")
  end.

(** [json.dump] and [json.load] of the standard library: [loads] gives
    [None] where [json.load] raises [ValueError]. *)
Record json_codec : Type := {
  dumps : json -> string;
  loads : string -> option json
}.

(** ** Text helpers *)

Definition nl : string := String (ascii_of_nat 10) EmptyString.
Definition dquote : string := String (ascii_of_nat 34) EmptyString.
Definition esc : string := String (ascii_of_nat 27) EmptyString.

Definition string_of_nat (n : nat) : string :=
  NilEmpty.string_of_uint (Nat.to_uint n).

(** A path as text, Windows style. *)
Definition path_str (p : path) : string := String.concat "\" p.

(** [ntpath.join(a, b)] for a relative [b] without drive. *)
Definition ntpath_join (a b : string) : string :=
  match String.length a with
  | 0 => b
  | S k =>
      let tail := substring k 1 a in
      if String.eqb tail "\" || String.eqb tail "/" || String.eqb tail ":"
      then a ++ b
      else a ++ "\" ++ b
  end.

(** The components of a path given as text: split at [\] and [/], empty
    components dropped.  Paths in the settings are taken as absolute. *)
Fixpoint split_path (s : string) (cur : string) : path :=
  let flush := match cur with EmptyString => [] | _ => [cur] end in
  match s with
  | EmptyString => flush
  | String c s' =>
      if Ascii.eqb c "\"%char || Ascii.eqb c "/"%char
      then flush ++ split_path s' EmptyString
      else split_path s' (cur ++ String c EmptyString)
  end.

Definition os_path (s : string) : path := split_path s EmptyString.

(** Does the text hold a path separator? *)
Fixpoint has_separator (s : string) : bool :=
  match s with
  | EmptyString => false
  | String c s' =>
      Ascii.eqb c "\"%char || Ascii.eqb c "/"%char || has_separator s'
  end.

(** ** datetime and strftime *)

Record datetime : Type := {
  year : nat; month : nat; day : nat;
  hour : nat; minute : nat; second : nat; microsecond : nat
}.

(** A value [datetime.now()] can return. *)
Definition valid_datetime (t : datetime) : Prop :=
  1 <= year t < 100 * 100 /\ 1 <= month t <= 12 /\ 1 <= day t <= 31 /\
  hour t < 24 /\ minute t < 60 /\ second t < 60 /\ microsecond t < 1000 * 1000.

Definition digit (d : nat) : ascii := ascii_of_nat (48 + d).

Definition pad2 (n : nat) : string :=
  String (digit (n / 10)) (String (digit (n mod 10)) EmptyString).

Definition pad4 (n : nat) : string :=
  pad2 (n / 100) ++ pad2 (n mod 100).

Definition month_abbr (m : nat) : string :=
  nth (m - 1)
      ["Jan"; "Feb"; "Mar"; "Apr"; "May"; "Jun";
       "Jul"; "Aug"; "Sep"; "Oct"; "Nov"; "Dec"] "???".

(** [t.strftime(fmt)] for the directives [%Y %b %d %H %M %S] (C locale);
    any other character, and any other directive, is copied as it is. *)
Fixpoint strftime (fmt : string) (t : datetime) : string :=
  match fmt with
  | EmptyString => EmptyString
  | String "%"%char (String d rest) =>
      if Ascii.eqb d "Y"%char then pad4 (year t) ++ strftime rest t
      else if Ascii.eqb d "b"%char then month_abbr (month t) ++ strftime rest t
      else if Ascii.eqb d "d"%char then pad2 (day t) ++ strftime rest t
      else if Ascii.eqb d "H"%char then pad2 (hour t) ++ strftime rest t
      else if Ascii.eqb d "M"%char then pad2 (minute t) ++ strftime rest t
      else if Ascii.eqb d "S"%char then pad2 (second t) ++ strftime rest t
      else String "%"%char (String d (strftime rest t))
  | String c rest => String c (strftime rest t)
  end.

(** The clock reading without its microseconds. *)
Definition to_second (t : datetime) : nat * nat * nat * nat * nat * nat :=
  (year t, month t, day t, hour t, minute t, second t).

(** The format of the artifact name in [compile_plugin]. *)
Definition package_name_format : string := "tapir_gh_%Y_%b_%d-%H_%M_%S.ghpy".

(** Two readings of the clock within one second. *)
Definition midnight : datetime :=
  {| year := 2024; month := 1; day := 1;
     hour := 0; minute := 0; second := 0; microsecond := 0 |}.

Definition midnight_later : datetime :=
  {| year := 2024; month := 1; day := 1;
     hour := 0; minute := 0; second := 0; microsecond := 1 |}.

Definition one_past_midnight : datetime :=
  {| year := 2024; month := 1; day := 1;
     hour := 0; minute := 0; second := 1; microsecond := 0 |}.

(** ** The world and the monad of effects *)

Record world : Type := {
  fs : node;                 (* the file system *)
  console : list string;     (* what was printed, oldest first *)
  spawned : list string      (* commands handed to the operating system *)
}.

Definition M (A : Type) : Type := world -> result A * world.

Definition ret {A : Type} (a : A) : M A := fun w => (Ok a, w).

Definition raise {A : Type} (e : exn) : M A := fun w => (Raise e, w).

Definition bind {A B : Type} (m : M A) (k : A -> M B) : M B :=
  fun w =>
    match m w with
    | (Ok a, w') => k a w'
    | (Raise e, w') => (Raise e, w')
    end.

(** [try: body / except ...]: [handler e] is the clause that catches [e],
    if any. *)
Definition try_except {A : Type} (body : M A) (handler : exn -> option (M A))
  : M A :=
  fun w =>
    match body w with
    | (Ok a, w') => (Ok a, w')
    | (Raise e, w') =>
        match handler e with
        | Some h => h w'
        | None => (Raise e, w')
        end
    end.

Declare Scope py_scope.
Delimit Scope py_scope with py.
Notation "x <- c1 ;; c2" := (bind c1 (fun x => c2))
  (at level 61, c1 at next level, right associativity) : py_scope.
Notation "c1 ;; c2" := (bind c1 (fun _ => c2))
  (at level 61, right associativity) : py_scope.
Open Scope py_scope.

Definition lift {A : Type} (r : result A) : M A := fun w => (r, w).

(** An update of the file system that may fail. *)
Definition fs_update (f : node -> result node) : M unit :=
  fun w =>
    match f (fs w) with
    | Ok fs' => (Ok tt, {| fs := fs'; console := console w; spawned := spawned w |})
    | Raise e => (Raise e, w)
    end.

Definition fs_read {A : Type} (f : node -> result A) : M A :=
  fun w => (f (fs w), w).

(** [print(s)] *)
Definition print (s : string) : M unit :=
  fun w => (Ok tt, {| fs := fs w; console := console w ++ [s]; spawned := spawned w |}).

Definition os_path_exists (p : path) : M bool :=
  fs_read (fun t => Ok (path_exists t p)).

Definition os_listdir (p : path) : M (list string) :=
  fs_read (fun t => match listdir t p with
                    | Some names => Ok names
                    | None => Raise (OSError "Not a directory")
                    end).

Definition os_makedirs (p : path) : M unit := fs_update (fun t => makedirs t p).
Definition shutil_copy2 (src dst : path) : M unit := fs_update (fun t => copy2 t src dst).
Definition shutil_rmtree (p : path) : M unit := fs_update (fun t => rmtree t p).
Definition distutils_copy_tree (src dst : path) : M unit :=
  fs_update (fun t => copy_tree t src dst).
Definition open_write (p : path) (content : string) : M unit :=
  fs_update (fun t => write_file t p content).
Definition open_read (p : path) : M string := fs_read (fun t => read_file t p).

(** A relation between the file system before and after a computation,
    whatever its outcome. *)
Definition keeps (R : node -> node -> Prop) {A : Type} (m : M A) : Prop :=
  forall w r w', m w = (r, w') -> R (fs w) (fs w').

(** Every directory stays a directory. *)
Definition dirs_stay (t t' : node) : Prop :=
  forall q, isdir t q = true -> isdir t' q = true.

(** What the path [p] holds is untouched. *)
Definition same_at (p : path) (t t' : node) : Prop :=
  lookup t' p = lookup t p.

(** Every path that exists still exists. *)
Definition paths_stay (t t' : node) : Prop :=
  forall q, path_exists t q = true -> path_exists t' q = true.

(** ** Compiler.collect_files *)

Module Compiler.

(** [os.path.basename(__file__)] *)
Definition module_basename : string := "build_module.py".

Definition ignore_list : list string :=
  [module_basename; "__init__.py"; "local"; "bin"].

(** The body of the [for file in os.listdir(folder_path)] loop for one
    entry; [recurse] is the recursive call on a sub-folder. *)
Definition collect_entry (recurse : path -> node -> list path)
           (folder_path : path) (file : string) (child : node) : list path :=
  let abs_path := path_join folder_path file in
  if negb (PyStr.contains ignore_list file) && PyStr.endswith file ".py"
  then [abs_path]
  else if is_dir child && negb (PyStr.contains ignore_list (PyStr.lower file))
       then recurse abs_path child
       else [].

(** [collect_files] on a path that resolves to the node [n]. *)
Fixpoint collect_node (folder_path : path) (n : node) : list path :=
  match n with
  | File _ => []
  | Dir es =>
      (fix loop (l : list (string * node)) : list path :=
         match l with
         | [] => []
         | (file, child) :: l' =>
             collect_entry collect_node folder_path file child ++ loop l'
         end) es
  end.

Definition collect_files (t : node) (folder_path : path) : list path :=
  match lookup t folder_path with
  | Some n => collect_node folder_path n
  | None => []
  end.


(** The first test of the loop: the entry is taken as a source file. *)
Definition listed (file : string) : bool :=
  negb (PyStr.contains ignore_list file) && PyStr.endswith file ".py".

(** The second test of the loop, on the name: the sub-folder may be entered. *)
Definition enterable (file : string) : bool :=
  negb (PyStr.contains ignore_list (PyStr.lower file)).

Definition collect_entries (folder_path : path) (es : list (string * node))
  : list path :=
  flat_map (fun e => collect_entry collect_node folder_path (fst e) (snd e)) es.

(** [reaches n dirs name]: from the directory [n] the loop walks down the
    sub-folders [dirs] and takes the entry [name] of the last one. *)
Fixpoint reaches (n : node) (dirs : list string) (name : string) {struct dirs}
  : Prop :=
  match n with
  | File _ => False
  | Dir es =>
      match dirs with
      | [] => (exists child, In (name, child) es) /\ listed name = true
      | d :: dirs' =>
          exists child,
            In (d, child) es /\ listed d = false /\ is_dir child = true /\
            enterable d = true /\ reaches child dirs' name
      end
  end.

(** The files the specification asks [collect] to return, in its words:
    the regular files under [root] with the recognized suffix whose name
    and whose every ancestor directory name (case-insensitive) are outside
    the exclusion set. *)
Definition spec_collects (t : node) (root q : path) : Prop :=
  exists dirs name,
    q = root ++ dirs ++ [name] /\ isfile t q = true /\
    PyStr.endswith name ".py" = true /\
    PyStr.contains ignore_list name = false /\
    Forall (fun d => PyStr.contains ignore_list (PyStr.lower d) = false) dirs.

(** A project folder that holds a directory whose name ends in [.py]. *)
Definition py_named_dir_tree : node :=
  Dir [("proj", Dir [("pkg.py", Dir [("a.py", File "pass")]);
                     ("m.py", File "pass")])].

(** A project folder with a file [__Init__.py] and a folder [BIN]. *)
Definition mixed_case_tree : node :=
  Dir [("proj", Dir [("__Init__.py", File "pass");
                     ("BIN", Dir [("x.py", File "pass")])])].

(** The external compiler: whether [from clr import CompileModules]
    succeeds, and what [CompileModules(target, *files)] does on a given
    file system: the bytes of the artifact, or the exception it raises. *)
Record toolchain : Type := {
  clr_available : bool;
  CompileModules : node -> path -> list path -> result string
}.

(** [traceback.format_exc()] *)
Definition format_exc (e : exn) : string :=
  "Traceback (most recent call last):" ++ nl ++ exn_class e ++ ": " ++ exn_str e ++ nl.

Section Build.

Variable tc : toolchain.
(** [os.path.abspath(__file__)] *)
Variable module_file : path.

(** Lines 67-69: the import and the call of the compiler, which leaves
    the artifact at [target_file]. *)
Definition compile_step (target_file : path) (program_files : list path)
  : M unit :=
  (if clr_available tc then ret tt
   else raise (ImportError "No module named clr")) ;;
  content <- fs_read (fun t => CompileModules tc t target_file program_files) ;;
  open_write target_file content ;;
  print ("BUILD SUCCESSFUL" ++ nl ++ "Target: " ++ path_str target_file ++ nl).

(** Lines 72-76: the copy to the place the user asked for. *)
Definition copy_step (target_file : path) (copy_target : json) : M unit :=
  if truthy copy_target then
    match copy_target with
    | JStr s =>
        let dst := os_path s in
        present <- os_path_exists dst ;;
        (if negb present then os_makedirs dst else ret tt) ;;
        shutil_copy2 target_file dst ;;
        print ("COPY SUCCESSFUL" ++ nl)
    | _ => raise (TypeError "coercing to Unicode: need string or buffer")
    end
  else ret tt.

(** Lines 58-64: the export folder is made when missing and the
    project files are collected. *)
Definition prepare (source_folder target_folder : path) : M (list path) :=
  present <- os_path_exists target_folder ;;
  (if negb present then os_makedirs target_folder else ret tt) ;;
  program_files <- fs_read (fun t => Ok (collect_files t source_folder)) ;;
  print (nl ++ "Collected " ++ string_of_nat (List.length program_files) ++ " files") ;;
  ret program_files.

Definition Build (filename : string) (source_folder : path)
           (copy_target : json) (export_folder : path) : M pyval :=
  let folder_name := dirname module_file in
  let source_folder := folder_name ++ source_folder in
  let target_folder := folder_name ++ export_folder in
  let target_file := path_join target_folder filename in
  program_files <- prepare source_folder target_folder ;;
  try_except
    (compile_step target_file program_files ;;
     copy_step target_file copy_target ;;
     ret (PyBool true))
    (fun ex =>
       if is_ImportError ex then
         Some (print (nl ++ "BUILD FAILED" ++ nl ++ nl ++
                      "Please run the script using IronPython." ++ nl ++
                      "Refer docstrings for more information." ++ nl) ;;
               ret PyNone)
       else if is_Exception ex then
         Some (print (nl ++ "BUILD FAILED" ++ nl) ;;
               print (format_exc ex) ;;
               print (exn_str ex) ;;
               ret (PyBool false))
       else None).

End Build.

End Compiler.

(** ** Application *)

Module Application.

Definition SETTINGS_FILE : string := "maghpy_settings.json".

(** The instance attributes set by [__init__]. *)
Record t : Type := {
  OS : string;
  is_ready : bool;
  config_data : json
}.

Definition ansi_colors : list (string * string) :=
  [("RED", esc ++ "[31m"); ("GREEN", esc ++ "[32m"); ("YELLOW", esc ++ "[33m");
   ("BLUE", esc ++ "[34m"); ("MAGENTA", esc ++ "[35m"); ("CYAN", esc ++ "[36m");
   ("DEFAULT", esc ++ "[0m")]%string.

Definition show (color tag message : string) : M unit :=
  match assoc color ansi_colors, assoc "DEFAULT" ansi_colors with
  | Some c, Some d => print (c ++ "<" ++ tag ++ "> " ++ d ++ message)
  | None, _ => raise (KeyError color)
  | _, None => raise (KeyError "DEFAULT")
  end.

Section App.

Variable codec : json_codec.
Variable tc : Compiler.toolchain.
(** [os.path.abspath(__file__)] and [os.environ["APPDATA"]] *)
Variable module_file : path.
Variable appdata : string.
(** [subprocess.call(cmd)]: the exit code of the command, or the
    exception of a failed launch. *)
Variable subprocess_result : string -> result Z.

Definition SETTINGS_DATA : json :=
  JObj [("IRONPYTHONPATH", JStr "C:\Program Files\Python\IronPython27\ipy.exe");
        ("RHINOPATH", JStr "C:\Program Files\Rhino 7\System\Rhino.exe");
        ("PLUGINPATH", JStr (ntpath_join (ntpath_join appdata "Grasshopper") "Libraries"));
        ("BUILDPATH", JStr (ntpath_join (path_str (dirname module_file)) "bin"))].

(** [str(v)] inside [str.format]: a string is taken as it is, any other
    value is rendered by the codec. *)
Definition py_str (v : json) : string :=
  match v with
  | JStr s => s
  | _ => dumps codec v
  end.

Definition subprocess_call (cmd : string) : M Z :=
  fun w =>
    (subprocess_result cmd,
     {| fs := fs w; console := console w; spawned := spawned w ++ [cmd] |}).

(** [os.system(cmd)], its exit status dropped. *)
Definition os_system (cmd : string) : M unit :=
  fun w =>
    (Ok tt, {| fs := fs w; console := console w; spawned := spawned w ++ [cmd] |}).

Definition find_config : M (bool * json) :=
  let config_data := JObj [] in
  let current_directory := dirname module_file in
  let file_path := path_join current_directory SETTINGS_FILE in
  names <- os_listdir current_directory ;;
  let found := PyStr.contains names SETTINGS_FILE in
  if negb found then
    show "GREEN" "LOG"
         ("'" ++ SETTINGS_FILE ++
          "' created successfully. Relaunch application to continue.") ;;
    open_write file_path (dumps codec SETTINGS_DATA) ;;
    ret (found, config_data)
  else
    content <- open_read file_path ;;
    config_data <- lift (match loads codec content with
                         | Some v => Ok v
                         | None => Raise (ValueError "No JSON object could be decoded")
                         end) ;;
    ret (found, config_data).

Definition clear (os : string) : M unit :=
  if String.eqb os "Darwin" then os_system "clear"
  else if String.eqb os "Windows" then os_system "cls"
  else show "RED" "ERROR" "Unrecognised Operating System.".

(** [Application()]: [os] is what [platform.system()] answers. *)
Definition init (os : string) : M t :=
  clear os ;;
  r <- find_config ;;
  ret {| OS := os; is_ready := fst r; config_data := snd r |}.

Definition launch_rhino (self : t) (launch_grasshopper : bool) : M pyval :=
  if is_ready self then
    show "GREEN" "LOG" "Launching Rhino..." ;;
    rhino <- lift (subscript (config_data self) "RHINOPATH") ;;
    let cmd := (dquote ++ py_str rhino ++ dquote ++ " /nosplash")%string in
    cmd <- (if launch_grasshopper then
              show "GREEN" "LOG" "Launching Grasshopper..." ;;
              ret (cmd ++ "/runscript=" ++ dquote ++
                   "_-Grasshopper Banner Disable Window Load Window Show _Enter" ++
                   dquote)%string
            else ret cmd) ;;
    code <- subprocess_call cmd ;;
    show "GREEN" "LOG" "Exiting Rhino..." ;;
    ret (PyInt code)
  else
    show "RED" "ERROR" "Application is not ready. Relaunch and continue." ;;
    ret PyNone.

(** [now] is what [datetime.now()] answers during the call. *)
Definition compile_plugin (self : t) (now : datetime) : M pyval :=
  let root := dirname (dirname module_file) in
  let package_source := root ++ ["python-package"; "src"; "tapir_py"] in
  let package_target := root ++ ["grasshopper-plugin"; "src"; "tapir_py"] in
  present <- os_path_exists package_source ;;
  if present then
    distutils_copy_tree package_source package_target ;;
    let package_name := strftime package_name_format now in
    copy_target <- lift (subscript (config_data self) "BUILDPATH") ;;
    Compiler.Build tc module_file package_name ["src"] copy_target ["bin"] ;;
    shutil_rmtree package_target ;;
    ret PyNone
  else
    show "RED" "ERROR" "Build Failed. 'tapir_py' package not found." ;;
    ret PyNone.

Definition build (self : t) : M unit :=
  ironpython <- lift (subscript (config_data self) "IRONPYTHONPATH") ;;
  buildpath <- lift (subscript (config_data self) "BUILDPATH") ;;
  let command := (py_str ironpython ++ " " ++ path_str module_file ++ " " ++
                  py_str buildpath)%string in
  subprocess_call command ;;
  ret tt.

(** The script run as [__main__]. *)
Definition main (os : string) : M unit :=
  app <- init os ;;
  build app ;;
  print "".

End App.

End Application.

(** ** A reference codec

    A small JSON printer and reader, used to run the model on concrete
    settings files. *)

Module SimpleJson.

Definition is_char (n : nat) (c : ascii) : bool := Ascii.eqb c (ascii_of_nat n).

Fixpoint escape (s : string) : string :=
  match s with
  | EmptyString => EmptyString
  | String c s' =>
      if is_char 34 c then String "\" (String c (escape s'))
      else if is_char 92 c then String "\" (String "\" (escape s'))
      else if is_char 10 c then String "\" (String "n" (escape s'))
      else String c (escape s')
  end.

Definition quote (s : string) : string := dquote ++ escape s ++ dquote.

Definition string_of_Z (n : Z) : string :=
  NilEmpty.string_of_int (Z.to_int n).

Fixpoint print (v : json) : string :=
  match v with
  | JNull => "null"
  | JBool true => "true"
  | JBool false => "false"
  | JNum n => string_of_Z n
  | JStr s => quote s
  | JArr items =>
      "[" ++ String.concat ", "
               ((fix go (l : list json) : list string :=
                   match l with
                   | [] => []
                   | x :: l' => print x :: go l'
                   end) items) ++ "]"
  | JObj members =>
      "{" ++ String.concat ", "
               ((fix go (l : list (string * json)) : list string :=
                   match l with
                   | [] => []
                   | (k, x) :: l' => (quote k ++ ": " ++ print x)%string :: go l'
                   end) members) ++ "}"
  end.

Fixpoint skip_ws (s : string) : string :=
  match s with
  | String c s' =>
      if is_char 32 c || is_char 10 c || is_char 13 c || is_char 9 c
      then skip_ws s' else s
  | EmptyString => s
  end.

(** The text of a string literal after its opening quote. *)
Fixpoint read_string (s : string) (acc : string) : option (string * string) :=
  match s with
  | EmptyString => None
  | String c s' =>
      if is_char 34 c then Some (acc, s')
      else if is_char 92 c then
        match s' with
        | String d s'' =>
            if is_char 110 d
            then read_string s'' (acc ++ nl)
            else if is_char 34 d || is_char 92 d || is_char 47 d
                 then read_string s'' (acc ++ String d EmptyString)
                 else None
        | EmptyString => None
        end
      else read_string s' (acc ++ String c EmptyString)
  end.

Definition is_digit (c : ascii) : bool :=
  let n := nat_of_ascii c in (48 <=? n) && (n <=? 57).

Fixpoint read_digits (s : string) (acc : Z) : Z * string :=
  match s with
  | String c s' =>
      if is_digit c
      then read_digits s' (10 * acc + Z.of_nat (nat_of_ascii c - 48))%Z
      else (acc, s)
  | EmptyString => (acc, s)
  end.

Definition expect (word : string) (v : json) (s : string)
  : option (json * string) :=
  if String.prefix word s
  then Some (v, substring (String.length word) (String.length s - String.length word) s)
  else None.

Fixpoint read_value (fuel : nat) (s : string) : option (json * string) :=
  match fuel with
  | 0 => None
  | S fuel' =>
      match skip_ws s with
      | EmptyString => None
      | String c rest =>
          if is_char 34 c then
            match read_string rest EmptyString with
            | Some (x, rest') => Some (JStr x, rest')
            | None => None
            end
          else if is_char 91 c then
            match skip_ws rest with
            | String d rest' =>
                if is_char 93 d then Some (JArr [], rest')
                else read_items fuel' rest []
            | EmptyString => None
            end
          else if is_char 123 c then
            match skip_ws rest with
            | String d rest' =>
                if is_char 125 d then Some (JObj [], rest')
                else read_members fuel' rest []
            | EmptyString => None
            end
          else if is_char 45 c then
            match rest with
            | String d _ =>
                if is_digit d
                then let (n, rest') := read_digits rest 0%Z in Some (JNum (- n)%Z, rest')
                else None
            | EmptyString => None
            end
          else if is_digit c then
            let (n, rest') := read_digits (String c rest) 0%Z in Some (JNum n, rest')
          else if is_char 110 c then expect "null" JNull (String c rest)
          else if is_char 116 c then expect "true" (JBool true) (String c rest)
          else if is_char 102 c then expect "false" (JBool false) (String c rest)
          else None
      end
  end
with read_items (fuel : nat) (s : string) (acc : list json)
  : option (json * string) :=
  match fuel with
  | 0 => None
  | S fuel' =>
      match read_value fuel' s with
      | Some (x, rest) =>
          match skip_ws rest with
          | String c rest' =>
              if is_char 44 c then read_items fuel' rest' (acc ++ [x])
              else if is_char 93 c then Some (JArr (acc ++ [x]), rest')
              else None
          | EmptyString => None
          end
      | None => None
      end
  end
with read_members (fuel : nat) (s : string) (acc : list (string * json))
  : option (json * string) :=
  match fuel with
  | 0 => None
  | S fuel' =>
      match skip_ws s with
      | String q rest =>
          if is_char 34 q then
            match read_string rest EmptyString with
            | Some (k, rest1) =>
                match skip_ws rest1 with
                | String c rest2 =>
                    if is_char 58 c then
                      match read_value fuel' rest2 with
                      | Some (x, rest3) =>
                          match skip_ws rest3 with
                          | String d rest4 =>
                              if is_char 44 d
                              then read_members fuel' rest4 (acc ++ [(k, x)])
                              else if is_char 125 d
                                   then Some (JObj (acc ++ [(k, x)]), rest4)
                                   else None
                          | EmptyString => None
                          end
                      | None => None
                      end
                    else None
                | EmptyString => None
                end
            | None => None
            end
          else None
      | EmptyString => None
      end
  end.

Definition read (s : string) : option json :=
  match read_value (S (String.length s)) s with
  | Some (v, rest) =>
      match skip_ws rest with
      | EmptyString => Some v
      | _ => None
      end
  | None => None
  end.

Definition codec : json_codec := {| dumps := print; loads := read |}.

End SimpleJson.

(** ** A sample installation

    The script sits in [C:\proj\grasshopper-plugin], next to the shared
    package [C:\proj\python-package\src\tapir_py]. *)

Module Sample.

Definition module_file : path :=
  ["C:"; "proj"; "grasshopper-plugin"; "build_module.py"].

Definition appdata : string := "C:\Users\dev\AppData\Roaming".

Definition tree : node :=
  Dir [("C:",
        Dir [("proj",
              Dir [("python-package",
                    Dir [("src", Dir [("tapir_py", Dir [("core.py", File "pass")])])]);
                   ("grasshopper-plugin",
                    Dir [("build_module.py", File "# build script");
                         ("src", Dir [("component.py", File "pass")])])])])].

Definition world0 : world := {| fs := tree; console := []; spawned := [] |}.

(** IronPython: the compiler is there and succeeds. *)
Definition ironpython : Compiler.toolchain :=
  {| Compiler.clr_available := true;
     Compiler.CompileModules := fun _ _ _ => Ok "MZ" |}.

(** CPython: there is no [clr] module. *)
Definition cpython : Compiler.toolchain :=
  {| Compiler.clr_available := false;
     Compiler.CompileModules := fun _ _ _ => Raise (ToolchainError "no compiler") |}.

Definition subprocess_result (cmd : string) : result Z := Ok 0%Z.

(** IronPython with sources that do not compile. *)
Definition broken_sources : Compiler.toolchain :=
  {| Compiler.clr_available := true;
     Compiler.CompileModules := fun _ _ _ => Raise (ToolchainError "syntax error") |}.

(** IronPython with the operator pressing Ctrl-C during the compilation. *)
Definition interrupted : Compiler.toolchain :=
  {| Compiler.clr_available := true;
     Compiler.CompileModules := fun _ _ _ => Raise KeyboardInterrupt |}.

(** The same installation with a settings file cut short. *)
Definition world_malformed : world :=
  {| fs := Dir [("C:",
                 Dir [("proj",
                       Dir [("grasshopper-plugin",
                             Dir [("build_module.py", File "# build script");
                                  ("maghpy_settings.json", File "{")])])])];
     console := []; spawned := [] |}.

(** An application that is ready, with settings that a user has edited
    and that lack [BUILDPATH]. *)
Definition app_without_BUILDPATH : Application.t :=
  {| Application.OS := "Windows";
     Application.is_ready := true;
     Application.config_data :=
       JObj [("IRONPYTHONPATH", JStr "C:\ipy\ipy.exe");
             ("RHINOPATH", JStr "C:\Rhino 7\System\Rhino.exe")] |}.

(** An application that is ready, with settings that send the artifact to
    [C:\plugins]. *)
Definition app_ready : Application.t :=
  {| Application.OS := "Windows";
     Application.is_ready := true;
     Application.config_data :=
       JObj [("IRONPYTHONPATH", JStr "C:\ipy\ipy.exe");
             ("RHINOPATH", JStr "C:\Rhino 7\System\Rhino.exe");
             ("PLUGINPATH", JStr "C:\plugins");
             ("BUILDPATH", JStr "C:\plugins")] |}.

Definition package_source : path := ["C:"; "proj"; "python-package"; "src"; "tapir_py"].
Definition package_target : path := ["C:"; "proj"; "grasshopper-plugin"; "src"; "tapir_py"].

(** The same installation with a settings file that holds an empty object. *)
Definition world_empty_settings : world :=
  {| fs := Dir [("C:",
                 Dir [("proj",
                       Dir [("grasshopper-plugin",
                             Dir [("build_module.py", File "# build script");
                                  ("maghpy_settings.json", File "{}")])])])];
     console := []; spawned := [] |}.

(** Settings edited by the user, and the installation that holds them. *)
Definition ready_settings_text : string :=
  "{" ++ dquote ++ "IRONPYTHONPATH" ++ dquote ++ ": " ++
         dquote ++ "C:\\ipy\\ipy.exe" ++ dquote ++ ", " ++
         dquote ++ "BUILDPATH" ++ dquote ++ ": " ++
         dquote ++ "C:\\plugins" ++ dquote ++ "}".

Definition world_ready : world :=
  {| fs := Dir [("C:",
                 Dir [("proj",
                       Dir [("grasshopper-plugin",
                             Dir [("build_module.py", File "# build script");
                                  ("maghpy_settings.json",
                                   File ready_settings_text)])])])];
     console := []; spawned := [] |}.

(** The settings written on the first run, as loaded on the second. *)
Definition default_settings : json :=
  Application.SETTINGS_DATA module_file appdata.

End Sample.

(** * Properties *)

(** ** Facts on the file-system tree *)

Section TreeFacts.

Lemma assoc_set_entry_same (A := node) c (v : A) es :
  assoc c (set_entry c v es) = Some v.
Proof.
  induction es as [|[k x] es IH]; simpl.
  - now rewrite String.eqb_refl.
  - destruct (String.eqb c k) eqn:E; simpl; rewrite E; auto.
Qed.

Lemma assoc_set_entry_other c d (v : node) es :
  String.eqb d c = false -> assoc d (set_entry c v es) = assoc d es.
Proof.
  intros Hd. induction es as [|[k x] es IH]; simpl.
  - now rewrite Hd.
  - destruct (String.eqb c k) eqn:E; simpl.
    + apply String.eqb_eq in E. subst k. now rewrite Hd.
    + now rewrite IH.
Qed.

Lemma assoc_del_entry_same c (es : list (string * node)) :
  assoc c (del_entry c es) = None.
Proof.
  induction es as [|[k x] es IH]; simpl; auto.
  destruct (String.eqb c k) eqn:E; simpl; auto. now rewrite E.
Qed.

Lemma assoc_del_entry_other c d (es : list (string * node)) :
  String.eqb d c = false -> assoc d (del_entry c es) = assoc d es.
Proof.
  intros Hd. induction es as [|[k x] es IH]; simpl; auto.
  destruct (String.eqb c k) eqn:E; simpl.
  - apply String.eqb_eq in E. subst k. now rewrite Hd.
  - now rewrite IH.
Qed.

Lemma lookup_app t p q :
  lookup t (p ++ q) =
  match lookup t p with Some n => lookup n q | None => None end.
Proof.
  revert t. induction p as [|c p IH]; intros t; simpl; auto.
  destruct t as [|es]; auto. destruct (assoc c es); auto.
Qed.

Lemma lookup_empty_dir q : q <> [] -> lookup (Dir []) q = None.
Proof. destruct q; [congruence | reflexivity]. Qed.

Lemma prefix_of_app p r : prefix_of p (p ++ r) = true.
Proof. induction p; simpl; auto. now rewrite String.eqb_refl. Qed.

Lemma prefix_of_inv p q : prefix_of p q = true -> exists r, q = p ++ r.
Proof.
  revert q. induction p as [|a p IH]; intros q H; simpl in *.
  - now exists q.
  - destruct q as [|b q]; [discriminate|].
    apply andb_true_iff in H as [E H]. apply String.eqb_eq in E. subst b.
    destruct (IH _ H) as [r ->]. now exists r.
Qed.

Lemma path_eqb_eq p q : path_eqb p q = true <-> p = q.
Proof.
  revert q. induction p as [|a p IH]; intros [|b q]; simpl; split;
    try congruence; try discriminate.
  - intros H. apply andb_true_iff in H as [E H].
    apply String.eqb_eq in E. apply IH in H. congruence.
  - intros H. inversion H; subst. rewrite String.eqb_refl. now apply IH.
Qed.

(** *** install *)

Lemma lookup_install_same p : forall t n t',
  install t p n = Some t' -> lookup t' p = Some n.
Proof.
  induction p as [|c p IH]; intros t n t' H; simpl in *.
  - congruence.
  - destruct t as [|es]; [discriminate|].
    destruct (install _ p n) as [child'|] eqn:E; [|discriminate].
    inversion H; subst. simpl. rewrite assoc_set_entry_same. eauto.
Qed.

Lemma lookup_install_other p : forall t n t' q,
  install t p n = Some t' ->
  prefix_of p q = false -> prefix_of q p = false ->
  lookup t' q = lookup t q.
Proof.
  induction p as [|c p IH]; intros t n t' q H Hpq Hqp; simpl in *.
  - discriminate.
  - destruct q as [|d q]; [discriminate|].
    destruct t as [|es]; [discriminate|].
    destruct (install _ p n) as [child'|] eqn:E; [|discriminate].
    inversion H; subst. simpl in *.
    destruct (String.eqb d c) eqn:Edc.
    + apply String.eqb_eq in Edc. subst d.
      rewrite String.eqb_refl in Hpq. simpl in *.
      rewrite assoc_set_entry_same.
      rewrite (IH _ _ _ q E Hpq Hqp).
      destruct (assoc c es); auto.
      apply lookup_empty_dir. destruct q; [discriminate | congruence].
    + now rewrite assoc_set_entry_other.
Qed.

(** Installing at a path that holds no directory leaves every directory
    of the tree a directory. *)
Lemma install_keeps_dirs p : forall t n t' q,
  install t p n = Some t' -> isdir t p = false ->
  isdir t q = true -> isdir t' q = true.
Proof.
  unfold isdir.
  induction p as [|c p IH]; intros t n t' q H Hp Hq; simpl in *.
  - destruct t; [|discriminate]. destruct q; simpl in *; discriminate.
  - destruct t as [|es]; [discriminate|].
    destruct (install _ p n) as [child'|] eqn:E; [|discriminate].
    inversion H; subst. destruct q as [|d q]; simpl in *; auto.
    destruct (String.eqb d c) eqn:Edc.
    + apply String.eqb_eq in Edc. subst d. rewrite assoc_set_entry_same.
      destruct (assoc c es) as [x|]; [|discriminate]. eauto.
    + now rewrite assoc_set_entry_other.
Qed.

(** Installing at a path that does not exist leaves every regular file
    as it is. *)
Lemma install_keeps_files p : forall t n t' q content,
  install t p n = Some t' -> path_exists t p = false ->
  lookup t q = Some (File content) -> lookup t' q = Some (File content).
Proof.
  unfold path_exists.
  induction p as [|c p IH]; intros t n t' q content H Hp Hq; simpl in *.
  - discriminate.
  - destruct t as [|es]; [discriminate|].
    destruct (install _ p n) as [child'|] eqn:E; [|discriminate].
    inversion H; subst. destruct q as [|d q]; simpl in *; [discriminate|].
    destruct (String.eqb d c) eqn:Edc.
    + apply String.eqb_eq in Edc. subst d. rewrite assoc_set_entry_same.
      destruct (assoc c es) as [x|]; [|discriminate]. eauto.
    + now rewrite assoc_set_entry_other.
Qed.

Lemma install_under_dir p : forall t n c,
  isdir t p = true -> exists t', install t (p ++ [c]) n = Some t'.
Proof.
  unfold isdir.
  induction p as [|a p IH]; intros t n c H; simpl in *.
  - destruct t; [discriminate|]. eauto.
  - destruct t as [|es]; [discriminate|].
    destruct (assoc a es) as [x|]; [|discriminate].
    destruct (IH x n c H) as [t' ->]. eauto.
Qed.

(** *** remove *)

Lemma lookup_remove_same p : forall t t',
  remove t p = Some t' -> lookup t' p = None.
Proof.
  induction p as [|c p IH]; intros t t' H; simpl in *; [discriminate|].
  destruct t as [|es]; [discriminate|].
  destruct (assoc c es) as [child|]; [|discriminate].
  destruct p as [|d p].
  - inversion H; subst. simpl. now rewrite assoc_del_entry_same.
  - destruct (remove child (d :: p)) as [child'|] eqn:E; [|discriminate].
    inversion H; subst. cbn [lookup]. rewrite assoc_set_entry_same. eauto.
Qed.

Lemma lookup_remove_other p : forall t t' q,
  remove t p = Some t' ->
  prefix_of p q = false -> prefix_of q p = false ->
  lookup t' q = lookup t q.
Proof.
  induction p as [|c p IH]; intros t t' q H Hpq Hqp; simpl in *; [discriminate|].
  destruct q as [|d q]; [discriminate|].
  destruct t as [|es]; [discriminate|].
  destruct (assoc c es) as [child|] eqn:Ec; [|discriminate].
  destruct (String.eqb d c) eqn:Edc.
  - apply String.eqb_eq in Edc. subst d.
    simpl in Hpq, Hqp. rewrite ?String.eqb_refl in Hpq, Hqp. simpl in Hpq, Hqp.
    destruct p as [|e p]; [discriminate|].
    destruct (remove child (e :: p)) as [child'|] eqn:E; [|discriminate].
    inversion H; subst. cbn [lookup]. rewrite assoc_set_entry_same, Ec. eauto.
  - destruct p as [|e p].
    + inversion H; subst. cbn [lookup]. now rewrite assoc_del_entry_other.
    + destruct (remove child (e :: p)) as [child'|] eqn:E; [|discriminate].
      inversion H; subst. cbn [lookup]. now rewrite assoc_set_entry_other.
Qed.

Lemma remove_exists p : forall t,
  p <> [] -> path_exists t p = true -> exists t', remove t p = Some t'.
Proof.
  unfold path_exists.
  induction p as [|c p IH]; intros t Hne H; [congruence|]. simpl in *.
  destruct t as [|es]; [discriminate|].
  destruct (assoc c es) as [child|]; [|discriminate].
  destruct p as [|d p]; eauto.
  destruct (IH child) as [t' ->]; eauto. congruence.
Qed.

End TreeFacts.

Lemma assoc_in {A : Type} k (v : A) es : assoc k es = Some v -> In (k, v) es.
Proof.
  induction es as [|[k' x] es IH]; simpl; [discriminate|].
  destruct (String.eqb k k') eqn:E; intros H.
  - apply String.eqb_eq in E. left. congruence.
  - right. auto.
Qed.

Lemma contains_in l x : PyStr.contains l x = true <-> In x l.
Proof.
  induction l as [|y l IH]; simpl; [split; [discriminate | tauto]|].
  rewrite orb_true_iff, IH, String.eqb_eq. split; intros [H|H]; auto.
Qed.

Lemma unique_assoc k (v : node) es :
  names_unique (map fst es) = true -> In (k, v) es -> assoc k es = Some v.
Proof.
  induction es as [|[k' x] es IH]; simpl; [tauto|].
  intros U [H|H]; apply andb_true_iff in U as [U1 U2].
  - inversion H; subst. now rewrite String.eqb_refl.
  - destruct (String.eqb k k') eqn:E; auto.
    apply String.eqb_eq in E. subst k'.
    apply negb_true_iff in U1.
    assert (PyStr.contains (map fst es) k = true) as C.
    { apply contains_in. change k with (fst (k, v)). now apply in_map. }
    congruence.
Qed.

(** Induction on the tree, with the hypothesis for every entry of a
    directory. *)
Lemma node_induction (P : node -> Prop)
      (HF : forall content, P (File content))
      (HD : forall es, Forall (fun e => P (snd e)) es -> P (Dir es)) :
  forall n, P n.
Proof.
  fix IH 1. intros [content|es]; [apply HF|]. apply HD.
  induction es as [|e es IHes]; constructor; [apply IH | exact IHes].
Qed.

Lemma wf_dir es :
  wf (Dir es) = true ->
  names_unique (map fst es) = true /\ Forall (fun e => wf (snd e) = true) es.
Proof.
  simpl. intros H. apply andb_true_iff in H as [U H]. split; auto.
  clear U. induction es as [|[k x] es IH]; constructor.
  - apply andb_true_iff in H. tauto.
  - apply IH. apply andb_true_iff in H. tauto.
Qed.

Lemma wf_lookup p : forall t n, wf t = true -> lookup t p = Some n -> wf n = true.
Proof.
  induction p as [|c p IH]; intros t n W H; simpl in H.
  - congruence.
  - destruct t as [|es]; [discriminate|].
    destruct (assoc c es) as [x|] eqn:E; [|discriminate].
    apply wf_dir in W as [_ W]. apply assoc_in in E.
    rewrite Forall_forall in W. apply (IH x); auto. apply (W _ E).
Qed.

(** ** collect_files *)

Module CollectFacts.
Import Compiler.

Lemma collect_node_dir folder_path es :
  collect_node folder_path (Dir es) = collect_entries folder_path es.
Proof.
  unfold collect_entries. simpl.
  induction es as [|[file child] es IH]; simpl; auto. now rewrite IH.
Qed.

(** The loop as the source has it: the listing of [folder_path] is walked
    and the recursive call is made on the joined path. *)
Lemma collect_files_unfold t folder_path :
  wf t = true ->
  collect_files t folder_path =
  match listdir t folder_path with
  | Some names =>
      flat_map
        (fun file =>
           let abs_path := path_join folder_path file in
           if negb (PyStr.contains ignore_list file) && PyStr.endswith file ".py"
           then [abs_path]
           else if isdir t abs_path &&
                   negb (PyStr.contains ignore_list (PyStr.lower file))
                then collect_files t abs_path
                else [])
        names
  | None => []
  end.
Proof.
  intros W. unfold collect_files, listdir.
  destruct (lookup t folder_path) as [[content|es]|] eqn:L; auto.
  rewrite collect_node_dir. unfold collect_entries.
  apply (wf_lookup _ _ _ W) in L as Wd. apply wf_dir in Wd as [U _].
  rewrite flat_map_concat_map, (flat_map_concat_map _ (map fst es)), map_map.
  f_equal. apply map_ext_in. intros [file child] Hin. simpl.
  unfold collect_entry, isdir, path_join.
  rewrite lookup_app, L. simpl.
  rewrite (unique_assoc _ _ _ U Hin).
  destruct (_ && PyStr.endswith _ _); auto.
Qed.

Lemma reaches_file content dirs name : ~ reaches (File content) dirs name.
Proof. destruct dirs; simpl; tauto. Qed.

Lemma in_collect_node n : forall folder_path q,
  In q (collect_node folder_path n) <->
  exists dirs name, q = folder_path ++ dirs ++ [name] /\ reaches n dirs name.
Proof.
  induction n as [content|es IH] using node_induction; intros folder_path q.
  - simpl. split; [tauto|]. intros (dirs & name & _ & R).
    now apply reaches_file in R.
  - rewrite collect_node_dir. unfold collect_entries. rewrite in_flat_map.
    split.
    + intros ([file child] & Hin & Hq). simpl in Hq.
      unfold collect_entry in Hq. fold (listed file) in Hq.
      fold (enterable file) in Hq.
      destruct (listed file) eqn:Hl.
      * destruct Hq as [<-|[]]. exists [], file. simpl. eauto.
      * destruct (is_dir child && enterable file) eqn:Hd; [|destruct Hq].
        apply andb_true_iff in Hd as [Hd He].
        rewrite Forall_forall in IH. apply (IH _ Hin) in Hq.
        destruct Hq as (dirs & name & -> & R).
        exists (file :: dirs), name. split.
        { unfold path_join. now rewrite <- app_assoc. }
        simpl. exists child. auto.
    + intros (dirs & name & -> & R). destruct dirs as [|d dirs]; cbn in R.
      * destruct R as [[child Hin] Hl]. exists (name, child). split; auto.
        simpl. unfold collect_entry. fold (listed name). rewrite Hl. now left.
      * destruct R as (child & Hin & Hl & Hd & He & R).
        exists (d, child). split; auto. simpl. unfold collect_entry.
        fold (listed d). fold (enterable d). rewrite Hl, Hd, He. simpl.
        rewrite Forall_forall in IH. apply (IH _ Hin).
        exists dirs, name. split; auto.
        unfold path_join. now rewrite <- app_assoc.
Qed.

Lemma in_collect_files t folder_path q :
  In q (collect_files t folder_path) <->
  exists n dirs name,
    lookup t folder_path = Some n /\ q = folder_path ++ dirs ++ [name] /\
    reaches n dirs name.
Proof.
  unfold collect_files. destruct (lookup t folder_path) as [n|].
  - rewrite in_collect_node. split.
    + intros (dirs & name & H). exists n, dirs, name. tauto.
    + intros (n' & dirs & name & E & H). inversion E; subst. eauto.
  - split; [intros [] | intros (n & _ & _ & E & _); discriminate].
Qed.

Lemma reaches_enterable dirs : forall n name,
  reaches n dirs name -> Forall (fun d => enterable d = true) dirs.
Proof.
  induction dirs as [|d dirs IH]; intros n name R; constructor;
    destruct n as [|es]; simpl in R; try tauto;
    destruct R as (child & _ & _ & _ & He & R); eauto.
Qed.

Lemma reaches_listed dirs : forall n name,
  reaches n dirs name -> listed name = true.
Proof.
  induction dirs as [|d dirs IH]; intros n name R;
    destruct n as [|es]; simpl in R; try tauto.
  destruct R as (child & _ & _ & _ & _ & R). eauto.
Qed.


Lemma reaches_lookup dirs : forall n name,
  wf n = true -> reaches n dirs name ->
  exists child, lookup n (dirs ++ [name]) = Some child.
Proof.
  induction dirs as [|d dirs IH]; intros n name W R;
    destruct n as [|es]; simpl in R; try tauto;
    apply wf_dir in W as [U W].
  - destruct R as [[child Hin] _]. exists child. simpl.
    now rewrite (unique_assoc _ _ _ U Hin).
  - destruct R as (child & Hin & _ & _ & _ & R).
    rewrite Forall_forall in W. specialize (W _ Hin). simpl in W.
    destruct (IH _ _ W R) as [x Hx]. exists x. simpl.
    now rewrite (unique_assoc _ _ _ U Hin).
Qed.

Lemma lookup_reaches dirs : forall n name content,
  lookup n (dirs ++ [name]) = Some (File content) ->
  listed name = true ->
  Forall (fun d => enterable d = true) dirs ->
  (forall pre d, isdir n (pre ++ [d]) = true -> listed d = false) ->
  reaches n dirs name.
Proof.
  induction dirs as [|d dirs IH]; intros n name content L Hl He Hpy;
    destruct n as [|es]; simpl in L; try discriminate.
  - destruct (assoc name es) as [x|] eqn:E; [|discriminate].
    simpl. split; auto. exists x. now apply assoc_in.
  - destruct (assoc d es) as [x|] eqn:E; [|discriminate].
    inversion He; subst. simpl. exists x.
    assert (is_dir x = true) as Hx.
    { destruct x; auto. destruct dirs; discriminate. }
    repeat split; auto.
    + now apply assoc_in.
    + apply (Hpy []). unfold isdir. simpl. now rewrite E.
    + apply (IH _ _ content); auto.
      intros pre d' H. apply (Hpy (d :: pre)). unfold isdir in *. simpl.
      now rewrite E.
Qed.

(** Where no directory beneath [root] bears a name the loop takes for a
    source file, [collect_files] returns exactly the files of the
    specification. *)
Lemma collect_files_exact_without_py_dirs t root :
  wf t = true ->
  (forall dirs d, isdir t (root ++ dirs ++ [d]) = true -> listed d = false) ->
  forall q, In q (collect_files t root) <-> spec_collects t root q.
Proof.
  intros W Hpy q. rewrite in_collect_files. unfold spec_collects. split.
  - intros (n & dirs & name & L & -> & R). exists dirs, name.
    pose proof (reaches_listed _ _ _ R) as Hl.
    pose proof (reaches_enterable _ _ _ R) as He.
    destruct (reaches_lookup _ _ _ (wf_lookup _ _ _ W L) R) as [child Hc].
    assert (lookup t (root ++ dirs ++ [name]) = Some child) as Hq.
    { now rewrite lookup_app, L. }
    unfold listed in Hl. apply andb_true_iff in Hl as [Hl1 Hl2].
    apply negb_true_iff in Hl1. repeat split; auto.
    + unfold isfile. rewrite Hq. destruct child as [|es]; auto.
      specialize (Hpy dirs name). unfold isdir in Hpy. rewrite Hq in Hpy.
      specialize (Hpy eq_refl). unfold listed in Hpy.
      rewrite Hl1, Hl2 in Hpy. discriminate.
    + eapply Forall_impl; [|exact He]. intros d. unfold enterable.
      now rewrite negb_true_iff.
  - intros (dirs & name & -> & Hf & Hs & Hn & Hd).
    unfold isfile in Hf. rewrite lookup_app in Hf.
    destruct (lookup t root) as [n|] eqn:L; [|discriminate].
    exists n, dirs, name. repeat split; auto.
    destruct (lookup n (dirs ++ [name])) as [[content|]|] eqn:Lq; try discriminate.
    apply (lookup_reaches _ _ _ content); auto.
    + unfold listed. now rewrite Hn, Hs.
    + eapply Forall_impl; [|exact Hd]. intros d. unfold enterable.
      now rewrite negb_true_iff.
    + intros pre d H. apply (Hpy pre d). unfold isdir in *.
      now rewrite lookup_app, L.
Qed.

End CollectFacts.

(** ** Claims on collect_files *)

(** C3 (fails on the code).  [collect_files] has no regular-file test: in
    the project folder [py_named_dir_tree] the directory [pkg.py] is
    returned as if it were a source file and is never entered, so the
    regular file [pkg.py/a.py], which the specification asks for, is
    missing from the result, and the result holds an entry that is not a
    regular file. *)
Theorem collect_files_returns_py_named_directory :
  Compiler.collect_files Compiler.py_named_dir_tree ["proj"] =
    [["proj"; "pkg.py"]; ["proj"; "m.py"]] /\
  isdir Compiler.py_named_dir_tree ["proj"; "pkg.py"] = true /\
  isfile Compiler.py_named_dir_tree ["proj"; "pkg.py"] = false /\
  Compiler.spec_collects Compiler.py_named_dir_tree ["proj"] ["proj"; "pkg.py"; "a.py"] /\
  ~ In ["proj"; "pkg.py"; "a.py"]
       (Compiler.collect_files Compiler.py_named_dir_tree ["proj"]) /\
  wf Compiler.py_named_dir_tree = true.
Proof.
  repeat split; try reflexivity.
  - exists ["pkg.py"], "a.py". repeat split; try reflexivity.
    repeat constructor.
  - vm_compute. intros [H|[H|[]]]; discriminate.
Qed.

(** C9.  Files are matched against the exclusion names exactly and their
    suffix is tested case-sensitively: a regular file of a collected
    folder is in the result if and only if its name is not literally in
    the exclusion list and ends in [.py]; so [__Init__.py], whose
    lower-case form is excluded, is included.  Directories are matched on
    their lower-case name: no returned path passes through a directory
    whose lower-case name is in the exclusion list. *)
Theorem collect_files_case_rules :
  (forall t folder_path es name content,
      lookup t folder_path = Some (Dir es) ->
      In (name, File content) es ->
      (In (path_join folder_path name) (Compiler.collect_files t folder_path) <->
       PyStr.contains Compiler.ignore_list name = false /\
       PyStr.endswith name ".py" = true)) /\
  (PyStr.contains Compiler.ignore_list (PyStr.lower "__Init__.py") = true /\
   forall t folder_path es content,
     lookup t folder_path = Some (Dir es) ->
     In ("__Init__.py", File content) es ->
     In (path_join folder_path "__Init__.py") (Compiler.collect_files t folder_path)) /\
  (forall t folder_path q pre d rest,
      In q (Compiler.collect_files t folder_path) ->
      q = folder_path ++ pre ++ d :: rest -> rest <> [] ->
      PyStr.contains Compiler.ignore_list (PyStr.lower d) = false).
Proof.
  assert (forall t folder_path es name content,
      lookup t folder_path = Some (Dir es) ->
      In (name, File content) es ->
      (In (path_join folder_path name) (Compiler.collect_files t folder_path) <->
       Compiler.listed name = true)) as Hfile.
  { intros t folder_path es name content L Hin.
    rewrite CollectFacts.in_collect_files. split.
    - intros (n & dirs & name' & _ & E & R).
      unfold path_join in E. apply app_inv_head in E.
      destruct dirs as [|d dirs].
      + simpl in E. inversion E; subst.
        apply (CollectFacts.reaches_listed _ _ _ R).
      + destruct dirs; discriminate.
    - intros Hl. exists (Dir es), [], name. simpl. repeat split; eauto. }
  split; [|split].
  - intros t folder_path es name content L Hin.
    rewrite (Hfile _ _ _ _ _ L Hin). unfold Compiler.listed.
    now rewrite andb_true_iff, negb_true_iff.
  - split; [reflexivity|]. intros t folder_path es content L Hin.
    now apply (Hfile _ _ _ _ _ L Hin).
  - intros t folder_path q pre d rest Hq E Hne.
    apply CollectFacts.in_collect_files in Hq as (n & dirs & name & _ & E' & R).
    apply CollectFacts.reaches_enterable in R.
    rewrite E in E'. apply app_inv_head in E'.
    destruct (exists_last Hne) as (rest' & x & ->).
    replace (pre ++ d :: rest' ++ [x]) with ((pre ++ d :: rest') ++ [x]) in E'
      by now rewrite <- app_assoc.
    apply app_inj_tail in E' as [<- _].
    rewrite Forall_forall in R.
    specialize (R d (in_elt d pre rest')). unfold Compiler.enterable in R.
    now apply negb_true_iff in R.
Qed.

(** The rules at work on [mixed_case_tree]. *)
Lemma collect_files_case_rules_witness :
  In ["proj"; "__Init__.py"]
     (Compiler.collect_files Compiler.mixed_case_tree ["proj"]) /\
  PyStr.contains Compiler.ignore_list (PyStr.lower "BIN") = true.
Proof.
  split; [|reflexivity].
  apply (proj2 (proj1 (proj2 collect_files_case_rules))
               Compiler.mixed_case_tree ["proj"] _ "pass" eq_refl).
  simpl. now left.
Defined.

(** ** The artifact name *)

Section PackageName.

Lemma digit_inj a b : a < 10 -> b < 10 -> digit a = digit b -> a = b.
Proof.
  unfold digit. intros Ha Hb H. apply (f_equal nat_of_ascii) in H.
  rewrite !nat_ascii_embedding in H by lia. lia.
Qed.

Lemma pad2_inj a b : a < 100 -> b < 100 -> pad2 a = pad2 b -> a = b.
Proof.
  unfold pad2. intros Ha Hb H.
  assert (digit (a / 10) = digit (b / 10)) as H1 by congruence.
  assert (digit (a mod 10) = digit (b mod 10)) as H2 by congruence.
  apply digit_inj in H1; [|apply Nat.Div0.div_lt_upper_bound; lia ..].
  apply digit_inj in H2; [|apply Nat.mod_upper_bound; lia ..].
  rewrite (Nat.div_mod_eq a 10), (Nat.div_mod_eq b 10). lia.
Qed.

Lemma pad4_inj a b : a < 100 * 100 -> b < 100 * 100 -> pad4 a = pad4 b -> a = b.
Proof.
  unfold pad4. intros Ha Hb H.
  assert (pad2 (a / 100) = pad2 (b / 100) /\ pad2 (a mod 100) = pad2 (b mod 100))
    as [H1 H2].
  { unfold pad2 in *. cbn [append] in H. split; congruence. }
  apply pad2_inj in H1; [|apply Nat.Div0.div_lt_upper_bound; lia ..].
  apply pad2_inj in H2; [|apply Nat.mod_upper_bound; lia ..].
  rewrite (Nat.div_mod_eq a 100), (Nat.div_mod_eq b 100). lia.
Qed.

Ltac month_cases m :=
  let E := fresh "E" in
  assert (m = 1 \/ m = 2 \/ m = 3 \/ m = 4 \/ m = 5 \/ m = 6 \/
          m = 7 \/ m = 8 \/ m = 9 \/ m = 10 \/ m = 11 \/ m = 12) as E by lia;
  repeat (destruct E as [E|E]); subst m.

Lemma month_abbr_length m : 1 <= m <= 12 -> String.length (month_abbr m) = 3.
Proof. intros H. month_cases m; reflexivity. Qed.

Lemma month_abbr_inj a b :
  1 <= a <= 12 -> 1 <= b <= 12 -> month_abbr a = month_abbr b -> a = b.
Proof.
  intros Ha Hb H. month_cases a; month_cases b;
    (reflexivity || discriminate H).
Qed.

Lemma append_inv_head (a b b' : string) : (a ++ b = a ++ b')%string -> b = b'.
Proof. induction a; simpl; intros H; [auto | inversion H; auto]. Qed.

Lemma append_inj_length (a a' b b' : string) :
  String.length a = String.length a' ->
  (a ++ b = a' ++ b')%string -> a = a' /\ b = b'.
Proof.
  revert a'. induction a as [|c a IH]; intros [|c' a'] L H; simpl in *;
    try discriminate; auto.
  inversion H; subst. destruct (IH a') as [-> ->]; auto.
Qed.

Lemma package_name_eq t :
  strftime package_name_format t =
  ("tapir_gh_" ++ pad4 (year t) ++ "_" ++ month_abbr (month t) ++ "_" ++
   pad2 (day t) ++ "-" ++ pad2 (hour t) ++ "_" ++ pad2 (minute t) ++ "_" ++
   pad2 (second t) ++ ".ghpy")%string.
Proof. reflexivity. Qed.

Lemma package_name_inj t1 t2 :
  valid_datetime t1 -> valid_datetime t2 ->
  strftime package_name_format t1 = strftime package_name_format t2 ->
  to_second t1 = to_second t2.
Proof.
  intros (Hy1 & Hm1 & Hd1 & Hh1 & Hi1 & Hs1 & _)
         (Hy2 & Hm2 & Hd2 & Hh2 & Hi2 & Hs2 & _) H.
  rewrite !package_name_eq in H.
  apply append_inv_head in H.
  apply append_inj_length in H as [Ey H]; [|reflexivity].
  apply (append_inv_head "_") in H.
  apply append_inj_length in H as [Em H];
    [|now rewrite !month_abbr_length].
  apply (append_inv_head "_") in H.
  apply append_inj_length in H as [Ed H]; [|reflexivity].
  apply (append_inv_head "-") in H.
  apply append_inj_length in H as [Eh H]; [|reflexivity].
  apply (append_inv_head "_") in H.
  apply append_inj_length in H as [Ei H]; [|reflexivity].
  apply (append_inv_head "_") in H.
  apply append_inj_length in H as [Es _]; [|reflexivity].
  apply pad4_inj in Ey; try lia. apply month_abbr_inj in Em; try lia.
  apply pad2_inj in Ed; try lia. apply pad2_inj in Eh; try lia.
  apply pad2_inj in Ei; try lia. apply pad2_inj in Es; try lia.
  unfold to_second. congruence.
Qed.

End PackageName.

(** C5 (as stated, fails).  Two distinct readings of the clock within the
    same second give the same artifact name. *)
Lemma package_name_collision :
  valid_datetime midnight /\ valid_datetime midnight_later /\
  midnight <> midnight_later /\
  strftime package_name_format midnight =
  strftime package_name_format midnight_later.
Proof.
  unfold valid_datetime, midnight, midnight_later.
  cbn [year month day hour minute second microsecond].
  repeat split; try lia.
  intros H. apply (f_equal microsecond) in H. discriminate H.
Qed.

(** C5 (amended).  The name carries the clock reading down to the second:
    two readings that differ in year, month, day, hour, minute or second
    give distinct artifact names. *)
Theorem package_names_differ t1 t2 :
  valid_datetime t1 -> valid_datetime t2 ->
  to_second t1 <> to_second t2 ->
  strftime package_name_format t1 <> strftime package_name_format t2.
Proof.
  intros V1 V2 Hne H. apply Hne. now apply package_name_inj.
Qed.

Lemma package_names_differ_witness :
  strftime package_name_format midnight <>
  strftime package_name_format one_past_midnight.
Proof.
  apply (package_names_differ midnight one_past_midnight);
    unfold valid_datetime, to_second, midnight, one_past_midnight;
    cbn [year month day hour minute second microsecond].
  - repeat split; lia.
  - repeat split; lia.
  - intros H. apply (f_equal snd) in H. discriminate H.
Defined.

(** ** Running the monad *)

Section MonadFacts.

Context {A B : Type}.

Lemma bind_ok (m : M A) (k : A -> M B) w a w1 :
  m w = (Ok a, w1) -> bind m k w = k a w1.
Proof. unfold bind. now intros ->. Qed.

Lemma bind_raise (m : M A) (k : A -> M B) w e w1 :
  m w = (Raise e, w1) -> bind m k w = (Raise e, w1).
Proof. unfold bind. now intros ->. Qed.

Lemma bind_inv (m : M A) (k : A -> M B) w r w' :
  bind m k w = (r, w') ->
  (exists a w1, m w = (Ok a, w1) /\ k a w1 = (r, w')) \/
  (exists e, m w = (Raise e, w') /\ r = Raise e).
Proof.
  unfold bind. destruct (m w) as [[a|e] w1]; intros H.
  - left. eauto.
  - right. inversion H; subst. eauto.
Qed.

Lemma try_except_ok (body : M A) handler w a w1 :
  body w = (Ok a, w1) -> try_except body handler w = (Ok a, w1).
Proof. unfold try_except. now intros ->. Qed.

Lemma try_except_caught (body : M A) handler w e w1 h :
  body w = (Raise e, w1) -> handler e = Some h ->
  try_except body handler w = h w1.
Proof. unfold try_except. now intros -> ->. Qed.

Lemma try_except_passed (body : M A) handler w e w1 :
  body w = (Raise e, w1) -> handler e = None ->
  try_except body handler w = (Raise e, w1).
Proof. unfold try_except. now intros -> ->. Qed.

End MonadFacts.

Section Keeps.

Variable R : node -> node -> Prop.
Hypothesis R_refl : forall t, R t t.
Hypothesis R_trans : forall t1 t2 t3, R t1 t2 -> R t2 t3 -> R t1 t3.

Lemma keeps_ret {A} (a : A) : keeps R (ret a).
Proof. intros w r w' H. inversion H; subst. apply R_refl. Qed.

Lemma keeps_raise {A} e : keeps R (@raise A e).
Proof. intros w r w' H. inversion H; subst. apply R_refl. Qed.

Lemma keeps_lift {A} (x : result A) : keeps R (lift x).
Proof. intros w r w' H. inversion H; subst. apply R_refl. Qed.

Lemma keeps_print s : keeps R (print s).
Proof. intros w r w' H. inversion H; subst. apply R_refl. Qed.

Lemma keeps_fs_read {A} (f : node -> result A) : keeps R (fs_read f).
Proof. intros w r w' H. inversion H; subst. apply R_refl. Qed.

Lemma keeps_fs_update f :
  (forall t t', f t = Ok t' -> R t t') -> keeps R (fs_update f).
Proof.
  intros Hf w r w' H. unfold fs_update in H.
  destruct (f (fs w)) eqn:E; inversion H; subst; simpl; auto.
Qed.

Lemma keeps_bind {A B} (m : M A) (k : A -> M B) :
  keeps R m -> (forall a, keeps R (k a)) -> keeps R (bind m k).
Proof.
  intros Hm Hk w r w' H. apply bind_inv in H as [(a & w1 & H1 & H2)|(e & H1 & _)].
  - eapply R_trans; [eapply Hm | eapply Hk]; eauto.
  - eapply Hm; eauto.
Qed.

Lemma keeps_if {A} (b : bool) (m1 m2 : M A) :
  keeps R m1 -> keeps R m2 -> keeps R (if b then m1 else m2).
Proof. now destruct b. Qed.

Lemma keeps_try_except {A} (body : M A) handler :
  keeps R body -> (forall e h, handler e = Some h -> keeps R h) ->
  keeps R (try_except body handler).
Proof.
  intros Hb Hh w r w' H. unfold try_except in H.
  destruct (body w) as [[a|e] w1] eqn:E.
  - inversion H; subst. eapply Hb; eauto.
  - destruct (handler e) as [h|] eqn:Eh.
    + eapply R_trans; [eapply Hb | eapply Hh]; eauto.
    + inversion H; subst. eapply Hb; eauto.
Qed.

End Keeps.

Lemma dirs_stay_refl t : dirs_stay t t.
Proof. intros q H. exact H. Qed.

Lemma dirs_stay_trans t1 t2 t3 :
  dirs_stay t1 t2 -> dirs_stay t2 t3 -> dirs_stay t1 t3.
Proof. intros H1 H2 q H. auto. Qed.

Lemma same_at_refl p t : same_at p t t.
Proof. reflexivity. Qed.

Lemma same_at_trans p t1 t2 t3 :
  same_at p t1 t2 -> same_at p t2 t3 -> same_at p t1 t3.
Proof. unfold same_at. congruence. Qed.

Lemma isdir_exists t p : isdir t p = true -> path_exists t p = true.
Proof. unfold isdir, path_exists. destruct (lookup t p); auto. Qed.

Lemma makedirs_dirs_stay t p t' : makedirs t p = Ok t' -> dirs_stay t t'.
Proof.
  unfold makedirs. destruct (path_exists t p) eqn:E; [discriminate|].
  destruct (install t p (Dir [])) as [x|] eqn:I; [|discriminate].
  intros H q Hq. inversion H; subst.
  apply (install_keeps_dirs _ _ _ _ _ I); auto.
  destruct (isdir t p) eqn:D; auto. apply isdir_exists in D. congruence.
Qed.

Lemma write_file_dirs_stay t p content t' :
  write_file t p content = Ok t' -> dirs_stay t t'.
Proof.
  unfold write_file. destruct p as [|c p]; [discriminate|].
  destruct (isdir t (dirname (c :: p)) && negb (isdir t (c :: p))) eqn:E;
    [|discriminate].
  destruct (install t (c :: p) _) as [x|] eqn:I; [|discriminate].
  intros H q Hq. inversion H; subst.
  apply andb_true_iff in E as [_ E]. apply negb_true_iff in E.
  apply (install_keeps_dirs _ _ _ _ _ I); auto.
Qed.

Lemma copy2_dirs_stay t src dst t' : copy2 t src dst = Ok t' -> dirs_stay t t'.
Proof.
  unfold copy2. destruct (_ && _); [discriminate|].
  destruct (read_file t src); [|discriminate].
  apply write_file_dirs_stay.
Qed.

(** [os.makedirs(p)] touches nothing beneath [p]: there was nothing, and
    the new directory is empty. *)
Lemma makedirs_same_below t p t' name :
  makedirs t p = Ok t' -> same_at (p ++ [name]) t t'.
Proof.
  unfold makedirs, same_at. destruct (path_exists t p) eqn:E; [discriminate|].
  destruct (install t p (Dir [])) as [x|] eqn:I; [|discriminate].
  intros H. inversion H; subst. rewrite !lookup_app.
  rewrite (lookup_install_same _ _ _ _ I).
  unfold path_exists in E. destruct (lookup t p); [discriminate|]. reflexivity.
Qed.

(** ** Compiler.Build *)

Module BuildFacts.
Import Compiler.

Ltac unfold_monad_in H :=
  cbv beta iota zeta delta
      [bind ret raise lift try_except fs_read fs_update print
       os_path_exists os_listdir os_makedirs shutil_copy2 shutil_rmtree
       distutils_copy_tree open_write open_read] in H.

Ltac unfold_monad :=
  cbv beta iota zeta delta
      [bind ret raise lift try_except fs_read fs_update print
       os_path_exists os_listdir os_makedirs shutil_copy2 shutil_rmtree
       distutils_copy_tree open_write open_read].

(** Case analysis on every test the hypothesis [H] runs through. *)
Ltac break H :=
  repeat match type of H with
         | context [match ?x with _ => _ end] =>
             let E := fresh "E" in destruct x eqn:E; try discriminate H
         end.

(** The same on every hypothesis, with the equations between outcomes
    taken apart. *)
Ltac crunch :=
  repeat match goal with
         | H : (_, _) = (_, _) |- _ => inversion H; clear H; subst
         | H : Ok _ = Ok _ |- _ => inversion H; clear H; subst
         | H : Raise _ = Raise _ |- _ => inversion H; clear H; subst
         | H : Ok _ = Raise _ |- _ => discriminate H
         | H : Raise _ = Ok _ |- _ => discriminate H
         | H : context [match ?x with _ => _ end] |- _ =>
             let E := fresh "E" in destruct x eqn:E; try discriminate H
         end.

Lemma makedirs_raises t p e : makedirs t p = Raise e -> exists m, e = OSError m.
Proof. unfold makedirs. intros H. break H; inversion H; eauto. Qed.

Lemma write_file_raises t p c e :
  write_file t p c = Raise e -> exists m, e = OSError m.
Proof. unfold write_file. intros H. break H; inversion H; eauto. Qed.

Lemma copy2_raises t src dst e :
  copy2 t src dst = Raise e -> exists m, e = OSError m.
Proof.
  unfold copy2, read_file. intros H.
  destruct (_ && _); [inversion H; eauto|].
  destruct (lookup t src) as [[c|]|]; try (inversion H; eauto; fail).
  eapply write_file_raises; eauto.
Qed.

(** The copy step raises nothing but [OSError] and [TypeError]. *)
Lemma copy_step_raises target_file copy_target w e w' :
  copy_step target_file copy_target w = (Raise e, w') ->
  (exists m, e = OSError m) \/ (exists m, e = TypeError m).
Proof.
  unfold copy_step. intros H. unfold_monad_in H.
  crunch; eauto using makedirs_raises, copy2_raises.
Qed.

Lemma makedirs_keeps_files t p t' q content :
  makedirs t p = Ok t' ->
  lookup t q = Some (File content) -> lookup t' q = Some (File content).
Proof.
  unfold makedirs. intros H Hq. break H. inversion H; subst.
  eapply install_keeps_files; eauto.
Qed.

(** A failed copy step leaves the regular files of the tree alone. *)
Lemma copy_step_failure_keeps_files target_file copy_target w e w' q content :
  copy_step target_file copy_target w = (Raise e, w') ->
  lookup (fs w) q = Some (File content) ->
  lookup (fs w') q = Some (File content).
Proof.
  unfold copy_step. intros H Hq. unfold_monad_in H.
  crunch; simpl; eauto using makedirs_keeps_files.
Qed.

Lemma write_file_lookup t p content t' :
  write_file t p content = Ok t' -> lookup t' p = Some (File content).
Proof.
  unfold write_file. intros H. break H. inversion H; subst.
  eapply lookup_install_same; eauto.
Qed.

(** A successful compile step leaves the artifact at the target path. *)
Lemma compile_step_artifact tc target_file files w w' :
  compile_step tc target_file files w = (Ok tt, w') ->
  clr_available tc = true /\
  exists content,
    CompileModules tc (fs w) target_file files = Ok content /\
    lookup (fs w') target_file = Some (File content).
Proof.
  unfold compile_step. intros H. unfold_monad_in H.
  crunch. simpl. split; auto.
  eexists. split; eauto using write_file_lookup.
Qed.

Ltac keeps_steps R_refl R_trans :=
  repeat first
    [ apply (keeps_ret _ R_refl)
    | apply (keeps_raise _ R_refl)
    | apply (keeps_lift _ R_refl)
    | apply (keeps_print _ R_refl)
    | apply (keeps_fs_read _ R_refl)
    | apply (keeps_bind _ R_trans)
    | apply keeps_if
    | match goal with |- forall _, keeps _ _ => intros ? end ].

Lemma prepare_dirs_stay source_folder target_folder :
  keeps dirs_stay (prepare source_folder target_folder).
Proof.
  unfold prepare, os_path_exists, os_makedirs.
  keeps_steps dirs_stay_refl dirs_stay_trans.
  apply (keeps_fs_update _ dirs_stay_refl). intros t t'. apply makedirs_dirs_stay.
Qed.

Lemma prepare_same_below source_folder target_folder filename :
  keeps (same_at (path_join target_folder filename))
        (prepare source_folder target_folder).
Proof.
  unfold prepare, os_path_exists, os_makedirs.
  keeps_steps (same_at_refl (path_join target_folder filename))
              (same_at_trans (path_join target_folder filename)).
  apply (keeps_fs_update _ (same_at_refl (path_join target_folder filename))).
  intros t t'. apply makedirs_same_below.
Qed.

Lemma compile_step_dirs_stay tc target_file files :
  keeps dirs_stay (compile_step tc target_file files).
Proof.
  unfold compile_step, open_write.
  keeps_steps dirs_stay_refl dirs_stay_trans.
  apply (keeps_fs_update _ dirs_stay_refl). intros t t'. apply write_file_dirs_stay.
Qed.

Lemma copy_step_dirs_stay target_file copy_target :
  keeps dirs_stay (copy_step target_file copy_target).
Proof.
  unfold copy_step, os_path_exists, os_makedirs, shutil_copy2.
  destruct (truthy copy_target); [|apply (keeps_ret _ dirs_stay_refl)].
  destruct copy_target; try apply (keeps_raise _ dirs_stay_refl).
  keeps_steps dirs_stay_refl dirs_stay_trans.
  - apply (keeps_fs_update _ dirs_stay_refl). intros t t'. apply makedirs_dirs_stay.
  - apply (keeps_fs_update _ dirs_stay_refl). intros t t'. apply copy2_dirs_stay.
Qed.

(** [Build] never removes a directory nor replaces it by a file. *)
Lemma Build_dirs_stay tc module_file filename source_folder copy_target
      export_folder :
  keeps dirs_stay
        (Build tc module_file filename source_folder copy_target export_folder).
Proof.
  unfold Build. apply (keeps_bind _ dirs_stay_trans).
  - apply prepare_dirs_stay.
  - intros files. apply (keeps_try_except _ dirs_stay_trans).
    + apply (keeps_bind _ dirs_stay_trans); [apply compile_step_dirs_stay|].
      intros _. apply (keeps_bind _ dirs_stay_trans); [apply copy_step_dirs_stay|].
      intros _. apply (keeps_ret _ dirs_stay_refl).
    + intros e h H. destruct (is_ImportError e); [|destruct (is_Exception e)];
        inversion H; subst; keeps_steps dirs_stay_refl dirs_stay_trans.
Qed.

Lemma compile_step_without_clr tc target_file files w :
  clr_available tc = false ->
  compile_step tc target_file files w =
  (Raise (ImportError "No module named clr"), w).
Proof. unfold compile_step, bind, raise. now intros ->. Qed.

End BuildFacts.

(** ** Claims on Build *)

(** C1 (as stated, fails).  On the sample installation with the default
    settings the copy target is the export folder itself: the compiler
    succeeds, the copy of the artifact onto itself fails, and [Build]
    returns [False], not [True]. *)
Lemma Build_copy_failure_counterexample :
  let copy_target := JStr "C:\proj\grasshopper-plugin\bin" in
  let target_file := ["C:"; "proj"; "grasshopper-plugin"; "bin"; "plugin.ghpy"] in
  subscript Sample.default_settings "BUILDPATH" = Ok copy_target /\
  truthy copy_target = true /\
  exists files w1 w2 w3,
    Compiler.prepare ["C:"; "proj"; "grasshopper-plugin"; "src"]
                     ["C:"; "proj"; "grasshopper-plugin"; "bin"] Sample.world0
      = (Ok files, w1) /\
    Compiler.compile_step Sample.ironpython target_file files w1 = (Ok tt, w2) /\
    Compiler.copy_step target_file copy_target w2
      = (Raise (OSError "are the same file"), w3) /\
    fst (Compiler.Build Sample.ironpython Sample.module_file "plugin.ghpy"
                        ["src"] copy_target ["bin"] Sample.world0)
      = Ok (PyBool false) /\
    fst (Compiler.Build Sample.ironpython Sample.module_file "plugin.ghpy"
                        ["src"] copy_target ["bin"] Sample.world0)
      <> Ok (PyBool true).
Proof.
  cbv zeta. split; [reflexivity|]. split; [reflexivity|].
  do 4 eexists. split; [vm_compute; reflexivity|].
  split; [vm_compute; reflexivity|].
  split; [vm_compute; reflexivity|].
  split; [vm_compute; reflexivity|].
  vm_compute. discriminate.
Qed.

(** C1 (amended).  When the compiler has succeeded and the copy step
    fails, the failure is caught by the general handler: [Build] prints
    the failure and returns [False].  The copy target was set, and the
    artifact is still at the target path. *)
Theorem Build_copy_failure_returns_False
        tc module_file filename source_folder copy_target export_folder
        w files w1 w2 e w3 :
  let target_folder := dirname module_file ++ export_folder in
  let target_file := path_join target_folder filename in
  Compiler.prepare (dirname module_file ++ source_folder) target_folder w
    = (Ok files, w1) ->
  Compiler.compile_step tc target_file files w1 = (Ok tt, w2) ->
  Compiler.copy_step target_file copy_target w2 = (Raise e, w3) ->
  Compiler.Build tc module_file filename source_folder copy_target export_folder w
    = (Ok (PyBool false),
       {| fs := fs w3;
          console := console w3 ++
                     [(nl ++ "BUILD FAILED" ++ nl)%string;
                      Compiler.format_exc e; exn_str e];
          spawned := spawned w3 |}) /\
  truthy copy_target = true /\
  isfile (fs w3) target_file = true.
Proof.
  intros target_folder target_file Hp Hc Hk.
  split; [|split].
  - unfold Compiler.Build. fold target_folder. fold target_file.
    rewrite (bind_ok _ _ _ _ _ Hp).
    assert (is_ImportError e = false /\ is_Exception e = true) as [Hi He].
    { destruct (BuildFacts.copy_step_raises _ _ _ _ _ Hk) as [[m ->]|[m ->]];
        auto. }
    erewrite try_except_caught.
    2:{ rewrite (bind_ok _ _ _ _ _ Hc). apply bind_raise. exact Hk. }
    2:{ rewrite Hi, He. reflexivity. }
    unfold bind, print, ret. simpl. now rewrite <- !app_assoc.
  - unfold Compiler.copy_step in Hk.
    destruct (truthy copy_target); [reflexivity | discriminate].
  - apply BuildFacts.compile_step_artifact in Hc as (_ & content & _ & L).
    unfold isfile.
    now rewrite (BuildFacts.copy_step_failure_keeps_files _ _ _ _ _ _ _ Hk L).
Qed.

Lemma Build_copy_failure_returns_False_witness :
  exists w',
    Compiler.Build Sample.ironpython Sample.module_file "plugin.ghpy" ["src"]
                   (JStr "C:\proj\grasshopper-plugin\bin") ["bin"]
                   Sample.world0
    = (Ok (PyBool false), w').
Proof.
  eexists. eapply proj1.
  eapply (Build_copy_failure_returns_False
            Sample.ironpython Sample.module_file "plugin.ghpy" ["src"]
            (JStr "C:\proj\grasshopper-plugin\bin") ["bin"] Sample.world0).
  - vm_compute. reflexivity.
  - vm_compute. reflexivity.
  - vm_compute. reflexivity.
Defined.

(** C4 (fails on the code).  Without the [clr] module the import raises
    [ImportError]; its handler prints a message and has no [return], so
    [Build] returns [None] where the claim and the docstring say [False].
    Whatever the outcome, nothing is created at the path of the artifact. *)
Theorem Build_without_clr_returns_None
        tc module_file filename source_folder copy_target export_folder w :
  let target_folder := dirname module_file ++ export_folder in
  let target_file := path_join target_folder filename in
  Compiler.clr_available tc = false ->
  (forall files w1,
      Compiler.prepare (dirname module_file ++ source_folder) target_folder w
        = (Ok files, w1) ->
      Compiler.Build tc module_file filename source_folder copy_target
                     export_folder w
        = (Ok PyNone,
           {| fs := fs w1;
              console := console w1 ++
                [(nl ++ "BUILD FAILED" ++ nl ++ nl ++
                  "Please run the script using IronPython." ++ nl ++
                  "Refer docstrings for more information." ++ nl)%string];
              spawned := spawned w1 |})) /\
  (forall r w',
      Compiler.Build tc module_file filename source_folder copy_target
                     export_folder w = (r, w') ->
      r <> Ok (PyBool false) /\
      lookup (fs w') target_file = lookup (fs w) target_file).
Proof.
  intros target_folder target_file Hclr.
  assert (forall files w1,
      Compiler.prepare (dirname module_file ++ source_folder) target_folder w
        = (Ok files, w1) ->
      Compiler.Build tc module_file filename source_folder copy_target
                     export_folder w
        = (Ok PyNone,
           {| fs := fs w1;
              console := console w1 ++
                [(nl ++ "BUILD FAILED" ++ nl ++ nl ++
                  "Please run the script using IronPython." ++ nl ++
                  "Refer docstrings for more information." ++ nl)%string];
              spawned := spawned w1 |})) as Hnone.
  { intros files w1 Hp. unfold Compiler.Build.
    fold target_folder. fold target_file.
    rewrite (bind_ok _ _ _ _ _ Hp).
    erewrite try_except_caught.
    2:{ apply bind_raise. now apply BuildFacts.compile_step_without_clr. }
    2:{ reflexivity. }
    reflexivity. }
  split; [exact Hnone|].
  intros r w' H.
  destruct (Compiler.prepare (dirname module_file ++ source_folder)
                             target_folder w) as [[files|e] w1] eqn:Hp.
  - rewrite (Hnone _ _ eq_refl) in H. inversion H; subst. simpl.
    split; [discriminate|].
    apply (BuildFacts.prepare_same_below _ _ filename _ _ _ Hp).
  - clear Hnone. unfold Compiler.Build in H. fold target_folder in H.
    rewrite (bind_raise _ _ _ _ _ Hp) in H. inversion H; subst.
    split; [discriminate|].
    apply (BuildFacts.prepare_same_below _ _ filename _ _ _ Hp).
Qed.

(** On the sample installation run by CPython, [Build] returns [None] and
    leaves no artifact. *)
Lemma Build_without_clr_returns_None_witness :
  fst (Compiler.Build Sample.cpython Sample.module_file "plugin.ghpy" ["src"]
                      (JStr "") ["bin"] Sample.world0) = Ok PyNone /\
  lookup (fs (snd (Compiler.Build Sample.cpython Sample.module_file
                                  "plugin.ghpy" ["src"] (JStr "") ["bin"]
                                  Sample.world0)))
         ["C:"; "proj"; "grasshopper-plugin"; "bin"; "plugin.ghpy"] = None.
Proof.
  pose proof (Build_without_clr_returns_None
                Sample.cpython Sample.module_file "plugin.ghpy" ["src"]
                (JStr "") ["bin"] Sample.world0 eq_refl) as [H1 H2].
  split.
  - erewrite H1; [reflexivity|]. vm_compute. reflexivity.
  - etransitivity; [|reflexivity].
    apply (proj2 (H2 _ _ (surjective_pairing _))).
Defined.

(** ** Application.find_config *)

Module ConfigFacts.
Import Application.

Lemma lookup_snoc t p name n :
  lookup t (p ++ [name]) = Some n ->
  exists es, lookup t p = Some (Dir es) /\ assoc name es = Some n.
Proof.
  rewrite lookup_app. destruct (lookup t p) as [[content|es]|]; simpl;
    try discriminate.
  destruct (assoc name es) as [x|] eqn:E; [|discriminate].
  intros H. inversion H; subst. eauto.
Qed.

Lemma assoc_contains (es : list (string * node)) name :
  PyStr.contains (map fst es) name = true <-> assoc name es <> None.
Proof.
  induction es as [|[k x] es IH]; simpl.
  - split; [discriminate | congruence].
  - destruct (String.eqb name k); simpl; [split; [discriminate | auto]|].
    exact IH.
Qed.

(** The settings file is there and cannot be decoded: [json.load] raises
    and nothing is changed. *)
Lemma find_config_malformed codec module_file appdata w content :
  lookup (fs w) (path_join (dirname module_file) SETTINGS_FILE)
    = Some (File content) ->
  loads codec content = None ->
  find_config codec module_file appdata w
    = (Raise (ValueError "No JSON object could be decoded"), w).
Proof.
  intros L Hl. destruct (lookup_snoc _ _ _ _ L) as (es & Ld & Ha).
  unfold find_config, os_listdir, open_read, fs_read, listdir, read_file,
    lift, bind.
  rewrite Ld.
  replace (PyStr.contains (map fst es) SETTINGS_FILE) with true.
  2:{ symmetry. apply assoc_contains. congruence. }
  simpl. fold (path_join (dirname module_file) SETTINGS_FILE).
  now rewrite L, Hl.
Qed.

(** The settings file is there and decodes to [v]: it is handed back as it
    is, and nothing is changed. *)
Lemma find_config_present codec module_file appdata w content v :
  lookup (fs w) (path_join (dirname module_file) SETTINGS_FILE)
    = Some (File content) ->
  loads codec content = Some v ->
  find_config codec module_file appdata w = (Ok (true, v), w).
Proof.
  intros L Hl. destruct (lookup_snoc _ _ _ _ L) as (es & Ld & Ha).
  unfold find_config, os_listdir, open_read, fs_read, listdir, read_file,
    lift, bind.
  rewrite Ld.
  replace (PyStr.contains (map fst es) SETTINGS_FILE) with true.
  2:{ symmetry. apply assoc_contains. congruence. }
  simpl. fold (path_join (dirname module_file) SETTINGS_FILE).
  now rewrite L, Hl.
Qed.

Lemma dirname_path_join p name : dirname (path_join p name) = p.
Proof. apply removelast_last. Qed.

Lemma write_file_under_dir t p name content :
  isdir t p = true -> path_exists t (path_join p name) = false ->
  exists t', write_file t (path_join p name) content = Ok t'.
Proof.
  intros Hd He. unfold write_file.
  assert (isdir t (path_join p name) = false) as Hf.
  { unfold isdir, path_exists in *. now destruct (lookup t (path_join p name)). }
  destruct (path_join p name) as [|c q] eqn:E.
  - unfold path_join in E. now destruct p.
  - rewrite <- E. rewrite dirname_path_join, Hd. rewrite E, Hf, <- E. simpl.
    destruct (install_under_dir _ t (File content) name Hd) as [t' Ht'].
    unfold path_join. rewrite Ht'. eauto.
Qed.

(** The settings file is missing: it is written with the defaults and the
    caller is told that the application is not ready. *)
Lemma find_config_absent codec module_file appdata w :
  isdir (fs w) (dirname module_file) = true ->
  path_exists (fs w) (path_join (dirname module_file) SETTINGS_FILE) = false ->
  exists t',
    write_file (fs w) (path_join (dirname module_file) SETTINGS_FILE)
               (dumps codec (SETTINGS_DATA module_file appdata)) = Ok t' /\
    find_config codec module_file appdata w
    = (Ok (false, JObj []),
       {| fs := t';
          console := console w ++
            [(esc ++ "[32m" ++ "<LOG> " ++ esc ++ "[0m" ++ "'" ++ SETTINGS_FILE ++
              "' created successfully. Relaunch application to continue.")%string];
          spawned := spawned w |}).
Proof.
  intros Hd He.
  destruct (write_file_under_dir
              _ _ _ (dumps codec (SETTINGS_DATA module_file appdata)) Hd He)
    as [t' Hw].
  exists t'. split; auto.
  unfold find_config, os_listdir, open_write, fs_read, fs_update, listdir, bind.
  unfold isdir in Hd.
  destruct (lookup (fs w) (dirname module_file)) as [[content|es]|] eqn:Ld;
    try discriminate.
  replace (PyStr.contains (map fst es) SETTINGS_FILE) with false.
  2:{ symmetry. destruct (PyStr.contains (map fst es) SETTINGS_FILE) eqn:C; auto.
      apply assoc_contains in C. exfalso. apply C.
      unfold path_exists, path_join in He.
      rewrite lookup_app, Ld in He. simpl in He.
      now destruct (assoc SETTINGS_FILE es). }
  simpl. now rewrite Hw.
Qed.

(** An answer of not-ready comes with empty settings. *)
Lemma find_config_not_ready_empty codec module_file appdata w cfg w' :
  find_config codec module_file appdata w = (Ok (false, cfg), w') ->
  cfg = JObj [].
Proof.
  unfold find_config, show. simpl. intros H. BuildFacts.unfold_monad_in H.
  destruct (listdir (fs w) (dirname module_file)) as [names|]; [|discriminate].
  destruct (PyStr.contains names SETTINGS_FILE); simpl in H.
  - BuildFacts.crunch.
  - BuildFacts.crunch. reflexivity.
Qed.

End ConfigFacts.

(** ** Claims on find_config *)

(** C6.  With no settings file in the directory of the script, the first
    call answers not-ready with empty settings and writes the four
    defaults; the second call, on what the first one left, answers ready
    with the defaults as settings and changes nothing, and so does every
    later call. *)
Theorem find_config_first_then_ready codec module_file appdata w :
  let file_path := path_join (dirname module_file) Application.SETTINGS_FILE in
  let defaults := Application.SETTINGS_DATA module_file appdata in
  loads codec (dumps codec defaults) = Some defaults ->
  isdir (fs w) (dirname module_file) = true ->
  path_exists (fs w) file_path = false ->
  exists w1,
    Application.find_config codec module_file appdata w
      = (Ok (false, JObj []), w1) /\
    lookup (fs w1) file_path = Some (File (dumps codec defaults)) /\
    (exists a b c d,
        defaults = JObj [("IRONPYTHONPATH", a); ("RHINOPATH", b);
                         ("PLUGINPATH", c); ("BUILDPATH", d)]) /\
    Application.find_config codec module_file appdata w1
      = (Ok (true, defaults), w1).
Proof.
  intros file_path defaults Hcodec Hd He.
  destruct (ConfigFacts.find_config_absent codec module_file appdata w Hd He)
    as (t' & Hw & Hf).
  eexists. split; [exact Hf|].
  apply BuildFacts.write_file_lookup in Hw.
  split; [exact Hw|]. split.
  - unfold defaults, Application.SETTINGS_DATA. eauto.
  - apply (ConfigFacts.find_config_present _ _ _ _ (dumps codec defaults));
      auto.
Qed.

Lemma find_config_first_then_ready_witness :
  exists w1,
    Application.find_config SimpleJson.codec Sample.module_file Sample.appdata
                            Sample.world0
      = (Ok (false, JObj []), w1) /\
    Application.find_config SimpleJson.codec Sample.module_file Sample.appdata w1
      = (Ok (true, Sample.default_settings), w1).
Proof.
  destruct (find_config_first_then_ready
              SimpleJson.codec Sample.module_file Sample.appdata Sample.world0)
    as (w1 & H1 & _ & _ & H2).
  - vm_compute. reflexivity.
  - reflexivity.
  - reflexivity.
  - exists w1. split; assumption.
Defined.

(** C8.  A settings file that is there and does not parse makes
    [find_config] raise [ValueError]; no settings, default or other, are
    returned, and nothing is written. *)
Theorem find_config_malformed_raises codec module_file appdata w content :
  lookup (fs w) (path_join (dirname module_file) Application.SETTINGS_FILE)
    = Some (File content) ->
  loads codec content = None ->
  Application.find_config codec module_file appdata w
    = (Raise (ValueError "No JSON object could be decoded"), w) /\
  forall r, fst (Application.find_config codec module_file appdata w) <> Ok r.
Proof.
  intros L Hl.
  rewrite (ConfigFacts.find_config_malformed _ _ _ _ _ L Hl).
  split; [reflexivity | discriminate].
Qed.

(** The sample installation with a truncated settings file. *)
Lemma find_config_malformed_raises_witness :
  Application.find_config SimpleJson.codec Sample.module_file Sample.appdata
                          Sample.world_malformed
  = (Raise (ValueError "No JSON object could be decoded"), Sample.world_malformed).
Proof.
  apply (find_config_malformed_raises
           SimpleJson.codec Sample.module_file Sample.appdata
           Sample.world_malformed "{").
  - reflexivity.
  - reflexivity.
Defined.

(** ** Application.compile_plugin and launch_rhino *)

Module PluginFacts.
Import Application.

Lemma prefix_of_app_both r a b : prefix_of (r ++ a) (r ++ b) = prefix_of a b.
Proof. induction r; simpl; auto. now rewrite String.eqb_refl. Qed.

(** The shared package and its staged copy lie apart. *)
Lemma source_target_disjoint root :
  disjoint (root ++ ["grasshopper-plugin"; "src"; "tapir_py"])
           (root ++ ["python-package"; "src"; "tapir_py"]) = true.
Proof. unfold disjoint. now rewrite !prefix_of_app_both. Qed.

Lemma copy_tree_node_is_dir src dst n :
  copy_tree_node src dst = Ok n -> is_dir n = true.
Proof.
  destruct src as [content|ses]; simpl; [discriminate|].
  destruct dst as [[c|des]|]; try discriminate.
  - generalize des. induction ses as [|[k x] ses IH]; intros acc H.
    + now inversion H.
    + destruct x; [destruct (copy_file_node _ _ _) | destruct (copy_tree_node _ _)];
        try discriminate; eauto.
  - generalize (@nil (string * node)).
    induction ses as [|[k x] ses IH]; intros acc H.
    + now inversion H.
    + destruct x; [destruct (copy_file_node _ _ _) | destruct (copy_tree_node _ _)];
        try discriminate; eauto.
Qed.

(** After [copy_tree] the destination is a directory, and what lies apart
    from it is untouched. *)
Lemma copy_tree_result t src dst t' :
  copy_tree t src dst = Ok t' ->
  isdir t' dst = true /\
  forall q, disjoint dst q = true -> lookup t' q = lookup t q.
Proof.
  unfold copy_tree. intros H.
  destruct (lookup t src) as [[c|ses]|]; try discriminate.
  destruct (copy_tree_node (Dir ses) (lookup t dst)) as [n|] eqn:C;
    [|discriminate].
  destruct (install t dst n) as [x|] eqn:I; [|discriminate].
  inversion H; subst. split.
  - unfold isdir. rewrite (lookup_install_same _ _ _ _ I).
    eapply copy_tree_node_is_dir; eauto.
  - intros q D. unfold disjoint in D. apply andb_true_iff in D as [D1 D2].
    apply negb_true_iff in D1, D2. eapply lookup_install_other; eauto.
Qed.

(** [rmtree] of a directory other than the root succeeds; the path is
    gone and what lies apart from it is untouched. *)
Lemma rmtree_result t p :
  isdir t p = true -> p <> [] ->
  exists t',
    rmtree t p = Ok t' /\ path_exists t' p = false /\
    forall q, disjoint p q = true -> lookup t' q = lookup t q.
Proof.
  intros Hd Hne. unfold rmtree. rewrite Hd.
  destruct (remove_exists p t Hne (isdir_exists _ _ Hd)) as [t' Hr].
  rewrite Hr. exists t'. split; auto. split.
  - unfold path_exists. now rewrite (lookup_remove_same _ _ _ Hr).
  - intros q D. unfold disjoint in D. apply andb_true_iff in D as [D1 D2].
    apply negb_true_iff in D1, D2. eapply lookup_remove_other; eauto.
Qed.

(** Not ready: [launch_rhino] reports and starts nothing. *)
Lemma launch_rhino_not_ready codec subprocess_result self launch_grasshopper w :
  is_ready self = false ->
  launch_rhino codec subprocess_result self launch_grasshopper w
  = (Ok PyNone,
     {| fs := fs w;
        console := console w ++
          [(esc ++ "[31m" ++ "<ERROR> " ++ esc ++ "[0m" ++
            "Application is not ready. Relaunch and continue.")%string];
        spawned := spawned w |}).
Proof. unfold launch_rhino. now intros ->. Qed.

(** The settings lack [BUILDPATH]: the package is staged, the lookup of the
    key raises, and neither the build nor the cleanup is run. *)
Lemma compile_plugin_without_BUILDPATH tc module_file self now w t1 :
  let root := dirname (dirname module_file) in
  let package_source := root ++ ["python-package"; "src"; "tapir_py"] in
  let package_target := root ++ ["grasshopper-plugin"; "src"; "tapir_py"] in
  subscript (config_data self) "BUILDPATH" = Raise (KeyError "BUILDPATH") ->
  path_exists (fs w) package_source = true ->
  copy_tree (fs w) package_source package_target = Ok t1 ->
  compile_plugin tc module_file self now w
  = (Raise (KeyError "BUILDPATH"),
     {| fs := t1; console := console w; spawned := spawned w |}).
Proof.
  intros root package_source package_target Hk He Hc.
  unfold compile_plugin. fold root. fold package_source. fold package_target.
  unfold bind, os_path_exists, distutils_copy_tree, fs_read, fs_update, lift.
  now rewrite He, Hc, Hk.
Qed.

End PluginFacts.

(** ** Claims on the orchestration *)

(** C10.  A not-ready answer of [find_config] carries empty settings,
    which lack [BUILDPATH].  With settings that lack the key and the shared
    package in place, [compile_plugin] stages the copy and then raises
    [KeyError]: nothing is built (the console and everything apart from
    the staged copy are as before) and the staged copy stays on disk. *)
Theorem compile_plugin_key_error_leaves_staged_copy
        codec tc module_file appdata self now w t1 :
  let root := dirname (dirname module_file) in
  let package_source := root ++ ["python-package"; "src"; "tapir_py"] in
  let package_target := root ++ ["grasshopper-plugin"; "src"; "tapir_py"] in
  (forall w0 cfg w0',
      Application.find_config codec module_file appdata w0
        = (Ok (false, cfg), w0') ->
      cfg = JObj [] /\
      subscript cfg "BUILDPATH" = Raise (KeyError "BUILDPATH")) /\
  (subscript (Application.config_data self) "BUILDPATH"
     = Raise (KeyError "BUILDPATH") ->
   path_exists (fs w) package_source = true ->
   copy_tree (fs w) package_source package_target = Ok t1 ->
   Application.compile_plugin tc module_file self now w
     = (Raise (KeyError "BUILDPATH"),
        {| fs := t1; console := console w; spawned := spawned w |}) /\
   isdir t1 package_target = true /\
   forall q, disjoint package_target q = true -> lookup t1 q = lookup (fs w) q).
Proof.
  intros root package_source package_target. split.
  - intros w0 cfg w0' H.
    apply ConfigFacts.find_config_not_ready_empty in H. subst cfg. now split.
  - intros Hk He Hc. split.
    + now apply PluginFacts.compile_plugin_without_BUILDPATH.
    + now apply PluginFacts.copy_tree_result in Hc.
Qed.

(** On the sample installation, after the first run. *)
Lemma compile_plugin_key_error_leaves_staged_copy_witness :
  exists w',
    Application.compile_plugin
      Sample.ironpython Sample.module_file
      {| Application.OS := "Windows"; Application.is_ready := false;
         Application.config_data := JObj [] |}
      midnight Sample.world0
    = (Raise (KeyError "BUILDPATH"), w') /\
    isdir (fs w') Sample.package_target = true.
Proof.
  destruct (proj2 (compile_plugin_key_error_leaves_staged_copy
                     SimpleJson.codec Sample.ironpython Sample.module_file
                     Sample.appdata
                     {| Application.OS := "Windows";
                        Application.is_ready := false;
                        Application.config_data := JObj [] |}
                     midnight Sample.world0
                     (Dir [("C:",
        Dir [("proj",
              Dir [("python-package",
                    Dir [("src", Dir [("tapir_py", Dir [("core.py", File "pass")])])]);
                   ("grasshopper-plugin",
                    Dir [("build_module.py", File "# build script");
                         ("src", Dir [("component.py", File "pass");
                                      ("tapir_py", Dir [("core.py", File "pass")])])])])])]))
             eq_refl eq_refl eq_refl) as (H1 & H2 & _).
  eexists. split; [exact H1 | exact H2].
Defined.

(** C2 (fails on the code).  On the sample installation the first run
    creates the settings file and answers not-ready with empty settings.
    [launch_rhino] then reports and starts nothing, but [compile_plugin]
    has no such guard: it stages the shared package and crashes with
    [KeyError], leaving the staged copy behind.  The script itself, run
    as [__main__], ends in a [KeyError] of [build] as well. *)
Theorem compile_plugin_runs_when_not_ready :
  exists app w1 wl w2,
    Application.init SimpleJson.codec Sample.module_file Sample.appdata
                     "Windows" Sample.world0 = (Ok app, w1) /\
    Application.is_ready app = false /\
    Application.launch_rhino SimpleJson.codec Sample.subprocess_result
                             app true w1 = (Ok PyNone, wl) /\
    fs wl = fs w1 /\ spawned wl = spawned w1 /\
    Application.compile_plugin Sample.ironpython Sample.module_file
                               app midnight w1
      = (Raise (KeyError "BUILDPATH"), w2) /\
    isdir (fs w1) Sample.package_target = false /\
    isdir (fs w2) Sample.package_target = true /\
    fst (Application.main SimpleJson.codec Sample.module_file Sample.appdata
                          Sample.subprocess_result "Windows" Sample.world0)
      = Raise (KeyError "IRONPYTHONPATH").
Proof.
  do 4 eexists.
  split; [vm_compute; reflexivity|].
  split; [reflexivity|].
  split; [vm_compute; reflexivity|].
  split; [reflexivity|]. split; [reflexivity|].
  split; [vm_compute; reflexivity|].
  split; [reflexivity|]. split; reflexivity.
Qed.

(** C7 (as stated, fails).  The application is ready, the settings lack
    [BUILDPATH]: staging succeeds, the key lookup raises, and the staged
    copy is not removed. *)
Lemma compile_plugin_cleanup_skipped :
  path_exists Sample.tree Sample.package_source = true /\
  (exists t1,
      copy_tree Sample.tree Sample.package_source Sample.package_target = Ok t1) /\
  exists e w',
    Application.compile_plugin Sample.ironpython Sample.module_file
                               Sample.app_without_BUILDPATH midnight Sample.world0
      = (Raise e, w') /\
    isdir (fs w') Sample.package_target = true.
Proof.
  split; [reflexivity|]. split.
  - eexists. vm_compute. reflexivity.
  - do 2 eexists. split; [vm_compute; reflexivity | reflexivity].
Qed.

(** C7 (amended).  When staging has succeeded, the settings hold
    [BUILDPATH] and the call of [Build] returns, be it [True], [False] or
    [None], the staged copy is removed: its path is gone, and whatever
    lies apart from it, the shared package first of all, is as [Build]
    left it.  Staging itself does not touch the shared package either. *)
Theorem compile_plugin_removes_staged_copy
        tc module_file self now w t1 copy_target v w2 :
  let root := dirname (dirname module_file) in
  let package_source := root ++ ["python-package"; "src"; "tapir_py"] in
  let package_target := root ++ ["grasshopper-plugin"; "src"; "tapir_py"] in
  path_exists (fs w) package_source = true ->
  copy_tree (fs w) package_source package_target = Ok t1 ->
  subscript (Application.config_data self) "BUILDPATH" = Ok copy_target ->
  Compiler.Build tc module_file (strftime package_name_format now) ["src"]
                 copy_target ["bin"]
                 {| fs := t1; console := console w; spawned := spawned w |}
    = (Ok v, w2) ->
  exists w3,
    Application.compile_plugin tc module_file self now w = (Ok PyNone, w3) /\
    path_exists (fs w3) package_target = false /\
    (forall q, disjoint package_target q = true ->
               lookup (fs w3) q = lookup (fs w2) q) /\
    lookup (fs w3) package_source = lookup (fs w2) package_source /\
    lookup t1 package_source = lookup (fs w) package_source /\
    console w3 = console w2 /\ spawned w3 = spawned w2.
Proof.
  intros root package_source package_target He Hc Hk Hb.
  assert (isdir (fs w2) package_target = true) as Hd.
  { apply (BuildFacts.Build_dirs_stay _ _ _ _ _ _ _ _ _ Hb). simpl.
    now apply PluginFacts.copy_tree_result in Hc. }
  destruct (PluginFacts.rmtree_result (fs w2) package_target Hd)
    as (t3 & Hr & Hgone & Hrest).
  { unfold package_target. now destruct root. }
  exists {| fs := t3; console := console w2; spawned := spawned w2 |}.
  split; [|split; [|split; [|split; [|split]]]]; auto.
  - unfold Application.compile_plugin.
    fold root. fold package_source. fold package_target.
    unfold bind, os_path_exists, distutils_copy_tree, shutil_rmtree,
      fs_read, fs_update, lift, ret.
    now rewrite He, Hc, Hk, Hb, Hr.
  - simpl. apply Hrest. apply PluginFacts.source_target_disjoint.
  - apply PluginFacts.copy_tree_result in Hc as [_ Hc]. apply Hc.
    apply PluginFacts.source_target_disjoint.
Qed.

(** On the sample installation with the artifact sent to [C:\plugins]. *)
Lemma compile_plugin_removes_staged_copy_witness :
  exists w3,
    Application.compile_plugin Sample.ironpython Sample.module_file
                               Sample.app_ready midnight Sample.world0
      = (Ok PyNone, w3) /\
    path_exists (fs w3) Sample.package_target = false.
Proof.
  edestruct (compile_plugin_removes_staged_copy
               Sample.ironpython Sample.module_file Sample.app_ready midnight
               Sample.world0)
    as (w3 & H1 & H2 & _).
  - reflexivity.
  - vm_compute. reflexivity.
  - reflexivity.
  - vm_compute. reflexivity.
  - exists w3. split; [exact H1 | exact H2].
Defined.

(** * Further properties *)

(** ** collect_files *)

Module CollectMore.
Import Compiler.

Lemma in_collect_entry_prefix folder_path file child q :
  In q (collect_entry collect_node folder_path file child) ->
  exists rest, q = folder_path ++ file :: rest.
Proof.
  unfold collect_entry, path_join.
  destruct (_ && PyStr.endswith _ _).
  - intros [<-|[]]. now exists [].
  - destruct (_ && _); [|intros []].
    intros H. apply CollectFacts.in_collect_node in H as (dirs & name & -> & _).
    exists (dirs ++ [name]). now rewrite <- app_assoc.
Qed.

Lemma in_collect_entries_prefix folder_path es q :
  In q (collect_entries folder_path es) ->
  exists file rest, In file (map fst es) /\ q = folder_path ++ file :: rest.
Proof.
  unfold collect_entries. rewrite in_flat_map.
  intros ([file child] & Hin & Hq). simpl in Hq.
  apply in_collect_entry_prefix in Hq as [rest ->].
  exists file, rest. split; auto. change file with (fst (file, child)).
  now apply in_map.
Qed.

Lemma collect_node_NoDup n :
  wf n = true -> forall folder_path, NoDup (collect_node folder_path n).
Proof.
  induction n as [content|es IH] using node_induction; intros W folder_path.
  - constructor.
  - rewrite CollectFacts.collect_node_dir. apply wf_dir in W as [U W].
    induction es as [|[file child] es IHes]; [constructor|].
    inversion IH as [|? ? IHchild IHrest]; subst.
    inversion W as [|? ? Wchild Wrest]; subst.
    simpl in U. apply andb_true_iff in U as [Ufile Urest].
    apply negb_true_iff in Ufile.
    change (collect_entries folder_path ((file, child) :: es))
      with (collect_entry collect_node folder_path file child ++
            collect_entries folder_path es).
    apply NoDup_app.
    + unfold collect_entry. destruct (_ && PyStr.endswith _ _).
      * repeat constructor. intros [].
      * destruct (_ && _); [|constructor]. now apply IHchild.
    + now apply IHes.
    + intros q H1 H2.
      apply in_collect_entry_prefix in H1 as [r1 ->].
      apply in_collect_entries_prefix in H2 as (file' & r2 & Hin & E).
      apply app_inv_head in E. inversion E; subst file'.
      apply contains_in in Hin. congruence.
Qed.

End CollectMore.

(** X1.  On a path that is no directory, a missing path or a regular file,
    [collect_files] returns the empty list and raises nothing. *)
Theorem collect_files_not_a_directory t folder_path :
  isdir t folder_path = false -> Compiler.collect_files t folder_path = [].
Proof.
  unfold Compiler.collect_files, isdir.
  destruct (lookup t folder_path) as [[content|es]|]; simpl;
    [reflexivity | discriminate | reflexivity].
Qed.

Lemma collect_files_not_a_directory_witness :
  Compiler.collect_files Sample.tree ["C:"; "nowhere"] = [] /\
  Compiler.collect_files Sample.tree Sample.module_file = [].
Proof.
  split; apply collect_files_not_a_directory; reflexivity.
Defined.

(** X2.  Every path [collect_files] returns is an entry of the tree that
    lies strictly beneath the folder asked for; its last component ends in
    [.py] and is none of the ignored names, so the build script itself and
    every [__init__.py] are left out. *)
Theorem collect_files_entries t folder_path q :
  wf t = true ->
  In q (Compiler.collect_files t folder_path) ->
  path_exists t q = true /\
  prefix_of folder_path q = true /\ q <> folder_path /\
  PyStr.endswith (basename q) ".py" = true /\
  PyStr.contains Compiler.ignore_list (basename q) = false /\
  basename q <> "__init__.py" /\ basename q <> "build_module.py".
Proof.
  intros W H.
  apply CollectFacts.in_collect_files in H as (n & dirs & name & L & -> & R).
  pose proof (CollectFacts.reaches_listed _ _ _ R) as Hl.
  destruct (CollectFacts.reaches_lookup _ _ _ (wf_lookup _ _ _ W L) R)
    as [child Hc].
  unfold Compiler.listed in Hl. apply andb_true_iff in Hl as [Hl1 Hl2].
  apply negb_true_iff in Hl1.
  assert (basename (folder_path ++ dirs ++ [name]) = name) as ->.
  { unfold basename. now rewrite app_assoc, last_last. }
  repeat split; auto.
  - unfold path_exists. now rewrite lookup_app, L, Hc.
  - apply prefix_of_app.
  - intros E. rewrite <- (app_nil_r folder_path) in E at 2.
    apply app_inv_head in E. now destruct dirs.
  - intros ->. discriminate.
  - intros ->. discriminate.
Qed.

Lemma collect_files_entries_witness :
  path_exists Sample.tree
              ["C:"; "proj"; "grasshopper-plugin"; "src"; "component.py"] = true /\
  PyStr.endswith "component.py" ".py" = true.
Proof.
  destruct (collect_files_entries
              Sample.tree ["C:"; "proj"; "grasshopper-plugin"]
              ["C:"; "proj"; "grasshopper-plugin"; "src"; "component.py"])
    as (H1 & _ & _ & H2 & _).
  - reflexivity.
  - vm_compute. now left.
  - split; [exact H1 | exact H2].
Defined.

(** X3.  In a tree where no directory beneath the folder has a name that
    passes the file test (ends in [.py] and is not ignored),
    [collect_files] returns exactly the regular files whose name ends in
    [.py] and is not ignored and whose directories on the way down are
    not ignored by their lower-case name. *)
Theorem collect_files_exact t root :
  wf t = true ->
  (forall dirs d,
      isdir t (root ++ dirs ++ [d]) = true -> Compiler.listed d = false) ->
  forall q,
    In q (Compiler.collect_files t root) <-> Compiler.spec_collects t root q.
Proof. apply CollectFacts.collect_files_exact_without_py_dirs. Qed.

Lemma collect_files_exact_witness :
  Compiler.spec_collects Compiler.mixed_case_tree ["proj"] ["proj"; "__Init__.py"].
Proof.
  apply (collect_files_exact Compiler.mixed_case_tree ["proj"]).
  - reflexivity.
  - intros dirs d H. unfold isdir in H. simpl in H.
    destruct dirs as [|a dirs]; simpl in H.
    + destruct (String.eqb d "__Init__.py") eqn:E1; [discriminate|].
      destruct (String.eqb d "BIN") eqn:E2; [|discriminate].
      apply String.eqb_eq in E2. now subst d.
    + destruct (String.eqb a "__Init__.py"); [now destruct dirs|].
      destruct (String.eqb a "BIN") eqn:E2; [|discriminate].
      destruct dirs as [|b dirs]; simpl in H.
      * destruct (String.eqb d "x.py"); discriminate.
      * destruct (String.eqb b "x.py"); [now destruct dirs | discriminate].
  - vm_compute. now left.
Defined.

(** X4.  In a tree with unique entry names [collect_files] returns no path
    twice. *)
Theorem collect_files_NoDup t folder_path :
  wf t = true -> NoDup (Compiler.collect_files t folder_path).
Proof.
  intros W. unfold Compiler.collect_files.
  destruct (lookup t folder_path) as [n|] eqn:L; [|constructor].
  apply CollectMore.collect_node_NoDup. eapply wf_lookup; eauto.
Qed.

Lemma collect_files_NoDup_witness :
  NoDup (Compiler.collect_files Sample.tree ["C:"; "proj"]).
Proof. apply collect_files_NoDup. reflexivity. Defined.

(** ** Build *)

Module BuildMore.
Import Compiler.

Lemma install_keeps_paths p : forall t n t' q,
  install t p n = Some t' -> isdir t p = false ->
  path_exists t q = true -> path_exists t' q = true.
Proof.
  unfold isdir, path_exists.
  induction p as [|c p IH]; intros t n t' q H Hp Hq; simpl in *.
  - destruct t; [|discriminate]. destruct q; simpl in *; [|discriminate].
    inversion H; subst. reflexivity.
  - destruct t as [|es]; [discriminate|].
    destruct (install _ p n) as [child'|] eqn:E; [|discriminate].
    inversion H; subst. destruct q as [|d q]; simpl in *; auto.
    destruct (String.eqb d c) eqn:Edc.
    + apply String.eqb_eq in Edc. subst d. rewrite assoc_set_entry_same.
      destruct (assoc c es) as [x|]; [|discriminate]. eauto.
    + now rewrite assoc_set_entry_other.
Qed.

Lemma install_keeps_other_files p : forall t n t' q content,
  install t p n = Some t' -> isdir t p = false -> q <> p ->
  lookup t q = Some (File content) -> lookup t' q = Some (File content).
Proof.
  unfold isdir.
  induction p as [|c p IH]; intros t n t' q content H Hp Hne Hq; simpl in *.
  - destruct t; [|discriminate]. destruct q; [congruence | discriminate].
  - destruct t as [|es]; [discriminate|].
    destruct (install _ p n) as [child'|] eqn:E; [|discriminate].
    inversion H; subst. destruct q as [|d q]; simpl in *; [discriminate|].
    destruct (String.eqb d c) eqn:Edc.
    + apply String.eqb_eq in Edc. subst d. rewrite assoc_set_entry_same.
      destruct (assoc c es) as [x|]; [|discriminate].
      apply (IH x n); auto. congruence.
    + now rewrite assoc_set_entry_other.
Qed.

Lemma paths_stay_refl t : paths_stay t t.
Proof. intros q H. exact H. Qed.

Lemma paths_stay_trans t1 t2 t3 :
  paths_stay t1 t2 -> paths_stay t2 t3 -> paths_stay t1 t3.
Proof. intros H1 H2 q H. auto. Qed.

Lemma makedirs_paths_stay t p t' : makedirs t p = Ok t' -> paths_stay t t'.
Proof.
  unfold makedirs. destruct (path_exists t p) eqn:E; [discriminate|].
  destruct (install t p (Dir [])) as [x|] eqn:I; [|discriminate].
  intros H q Hq. inversion H; subst.
  apply (install_keeps_paths _ _ _ _ _ I); auto.
  destruct (isdir t p) eqn:D; auto. apply isdir_exists in D. congruence.
Qed.

Lemma write_file_paths_stay t p content t' :
  write_file t p content = Ok t' -> paths_stay t t'.
Proof.
  unfold write_file. destruct p as [|c p]; [discriminate|].
  destruct (isdir t (dirname (c :: p)) && negb (isdir t (c :: p))) eqn:E;
    [|discriminate].
  destruct (install t (c :: p) _) as [x|] eqn:I; [|discriminate].
  intros H q Hq. inversion H; subst.
  apply andb_true_iff in E as [_ E]. apply negb_true_iff in E.
  apply (install_keeps_paths _ _ _ _ _ I); auto.
Qed.

Lemma copy2_paths_stay t src dst t' : copy2 t src dst = Ok t' -> paths_stay t t'.
Proof.
  unfold copy2. destruct (_ && _); [discriminate|].
  destruct (read_file t src); [|discriminate].
  apply write_file_paths_stay.
Qed.

Lemma write_file_keeps_other_files t p content t' q content' :
  write_file t p content = Ok t' -> q <> p ->
  lookup t q = Some (File content') -> lookup t' q = Some (File content').
Proof.
  unfold write_file. destruct p as [|c p]; [discriminate|].
  destruct (isdir t (dirname (c :: p)) && negb (isdir t (c :: p))) eqn:E;
    [|discriminate].
  destruct (install t (c :: p) _) as [x|] eqn:I; [|discriminate].
  intros H Hne Hq. inversion H; subst.
  apply andb_true_iff in E as [_ E]. apply negb_true_iff in E.
  eapply install_keeps_other_files; eauto.
Qed.

(** A copy that succeeds leaves the source as it is and puts its content
    at the destination: inside [dst] under the name of the source when
    [dst] is a directory, at [dst] itself otherwise. *)
Lemma copy2_result t src dst t' content :
  copy2 t src dst = Ok t' ->
  lookup t src = Some (File content) ->
  lookup t' src = Some (File content) /\
  (lookup t' (path_join dst (basename src)) = Some (File content) \/
   lookup t' dst = Some (File content)).
Proof.
  unfold copy2, read_file. intros H L. rewrite L in H.
  unfold path_exists in H. rewrite L in H. rewrite andb_true_r in H.
  destruct (path_eqb src (if isdir t dst then path_join dst (basename src) else dst))
    eqn:E; [discriminate|].
  assert (src <> (if isdir t dst then path_join dst (basename src) else dst))
    as Hne.
  { intros Heq. apply path_eqb_eq in Heq. congruence. }
  split.
  - eapply write_file_keeps_other_files; eauto.
  - apply BuildFacts.write_file_lookup in H. destruct (isdir t dst); auto.
Qed.

(** A copy step that succeeds leaves the artifact in place and, when a
    copy target is set, leaves an identical copy there. *)
Lemma copy_step_result target_folder filename copy_target w w' content :
  copy_step (path_join target_folder filename) copy_target w = (Ok tt, w') ->
  lookup (fs w) (path_join target_folder filename) = Some (File content) ->
  lookup (fs w') (path_join target_folder filename) = Some (File content) /\
  (truthy copy_target = true ->
   exists s, copy_target = JStr s /\
     (lookup (fs w') (path_join (os_path s) filename) = Some (File content) \/
      lookup (fs w') (os_path s) = Some (File content))).
Proof.
  unfold copy_step. intros H L.
  destruct (truthy copy_target) eqn:T.
  2:{ inversion H; subst. split; [auto | discriminate]. }
  destruct copy_target; try discriminate.
  BuildFacts.unfold_monad_in H.
  assert (basename (path_join target_folder filename) = filename) as Hb.
  { unfold basename, path_join. apply last_last. }
  destruct (negb (path_exists (fs w) (os_path s))) eqn:Ex.
  - destruct (makedirs (fs w) (os_path s)) as [t1|] eqn:Hm; [|discriminate].
    simpl in H.
    destruct (copy2 t1 (path_join target_folder filename) (os_path s))
      as [t2|] eqn:Hc; [|discriminate].
    inversion H; subst. simpl.
    apply (BuildFacts.makedirs_keeps_files _ _ _ _ _ Hm) in L.
    destruct (copy2_result _ _ _ _ _ Hc L) as [H1 H2]. rewrite Hb in H2.
    split; eauto.
  - simpl in H.
    destruct (copy2 (fs w) (path_join target_folder filename) (os_path s))
      as [t2|] eqn:Hc; [|discriminate].
    inversion H; subst. simpl.
    destruct (copy2_result _ _ _ _ _ Hc L) as [H1 H2]. rewrite Hb in H2.
    split; eauto.
Qed.

Lemma Build_paths_stay tc module_file filename source_folder copy_target
      export_folder :
  keeps paths_stay
        (Build tc module_file filename source_folder copy_target export_folder).
Proof.
  unfold Build. apply (keeps_bind _ paths_stay_trans).
  - unfold prepare, os_path_exists, os_makedirs.
    BuildFacts.keeps_steps paths_stay_refl paths_stay_trans.
    apply (keeps_fs_update _ paths_stay_refl). intros t t'.
    apply makedirs_paths_stay.
  - intros files. apply (keeps_try_except _ paths_stay_trans).
    + apply (keeps_bind _ paths_stay_trans).
      * unfold compile_step, open_write.
        BuildFacts.keeps_steps paths_stay_refl paths_stay_trans.
        apply (keeps_fs_update _ paths_stay_refl). intros t t'.
        apply write_file_paths_stay.
      * intros _. apply (keeps_bind _ paths_stay_trans);
          [|intros _; apply (keeps_ret _ paths_stay_refl)].
        unfold copy_step, os_path_exists, os_makedirs, shutil_copy2.
        destruct (truthy copy_target); [|apply (keeps_ret _ paths_stay_refl)].
        destruct copy_target; try apply (keeps_raise _ paths_stay_refl).
        BuildFacts.keeps_steps paths_stay_refl paths_stay_trans.
        -- apply (keeps_fs_update _ paths_stay_refl). intros t t'.
           apply makedirs_paths_stay.
        -- apply (keeps_fs_update _ paths_stay_refl). intros t t'.
           apply copy2_paths_stay.
    + intros e h H. destruct (is_ImportError e); [|destruct (is_Exception e)];
        inversion H; subst;
        BuildFacts.keeps_steps paths_stay_refl paths_stay_trans.
Qed.

(** What the compile step raises: the missing [clr], what the compiler
    raised, or the [OSError] of writing the artifact. *)
Lemma compile_step_raises tc target_file files w e w' :
  compile_step tc target_file files w = (Raise e, w') ->
  w' = w /\
  (clr_available tc = false /\ e = ImportError "No module named clr" \/
   clr_available tc = true /\ CompileModules tc (fs w) target_file files = Raise e \/
   clr_available tc = true /\ exists m, e = OSError m).
Proof.
  unfold compile_step. intros H. BuildFacts.unfold_monad_in H.
  destruct (clr_available tc); simpl in H.
  - destruct (CompileModules tc (fs w) target_file files) as [content|e0] eqn:C.
    + destruct (write_file (fs w) target_file content) as [t'|e1] eqn:Hw;
        inversion H; subst.
      split; auto. right. right. split; auto.
      eapply BuildFacts.write_file_raises; eauto.
    + inversion H; subst. auto.
  - inversion H; subst. auto.
Qed.

End BuildMore.

(** X5.  When [Build] returns [True], the compiler was available and
    succeeded on the collected files, the artifact at the target path
    holds exactly what the compiler produced, and, if a copy target was
    given, the copy target holds a copy with the same content: inside it
    under the artifact's name, or in its place when the copy target was an
    existing regular file. *)
Theorem Build_True_artifact
        tc module_file filename source_folder copy_target export_folder w w' :
  let target_folder := dirname module_file ++ export_folder in
  let target_file := path_join target_folder filename in
  Compiler.Build tc module_file filename source_folder copy_target
                 export_folder w = (Ok (PyBool true), w') ->
  Compiler.clr_available tc = true /\
  exists files w1 content,
    Compiler.prepare (dirname module_file ++ source_folder) target_folder w
      = (Ok files, w1) /\
    Compiler.CompileModules tc (fs w1) target_file files = Ok content /\
    lookup (fs w') target_file = Some (File content) /\
    (truthy copy_target = true ->
     exists s, copy_target = JStr s /\
       (lookup (fs w') (path_join (os_path s) filename) = Some (File content) \/
        lookup (fs w') (os_path s) = Some (File content))).
Proof.
  intros target_folder target_file H.
  unfold Compiler.Build in H. fold target_folder in H. fold target_file in H.
  apply bind_inv in H as [(files & w1 & Hp & H)|(e & _ & Hr)]; [|discriminate].
  unfold try_except in H.
  destruct (bind (Compiler.compile_step tc target_file files) _ w1)
    as [[v|e] w2] eqn:Hb.
  - inversion H; subst. clear H.
    apply bind_inv in Hb as [([] & wa & Hc & Hb)|(e & _ & Hr)]; [|discriminate].
    apply bind_inv in Hb as [([] & wb & Hk & Hb)|(e & _ & Hr)]; [|discriminate].
    inversion Hb; subst. clear Hb.
    destruct (BuildFacts.compile_step_artifact _ _ _ _ _ Hc)
      as (Hclr & content & Hcm & L).
    split; auto. exists files, w1, content. split; auto. split; auto.
    apply (BuildMore.copy_step_result _ _ _ _ _ _ Hk L).
  - destruct (is_ImportError e); [|destruct (is_Exception e)];
      cbv [bind print ret] in H; inversion H.
Qed.

(** A build on the sample installation with the copy sent to
    [C:\plugins]. *)
Lemma Build_True_artifact_witness :
  exists w',
    Compiler.Build Sample.ironpython Sample.module_file "plugin.ghpy" ["src"]
                   (JStr "C:\plugins") ["bin"] Sample.world0
      = (Ok (PyBool true), w') /\
    lookup (fs w') ["C:"; "proj"; "grasshopper-plugin"; "bin"; "plugin.ghpy"]
      = Some (File "MZ").
Proof.
  eexists. split; [vm_compute; reflexivity|].
  destruct (Build_True_artifact
              Sample.ironpython Sample.module_file "plugin.ghpy" ["src"]
              (JStr "C:\plugins") ["bin"] Sample.world0 _
              ltac:(vm_compute; reflexivity))
    as (_ & files & w1 & content & _ & Hc & L & _).
  simpl in Hc. inversion Hc; subst content. exact L.
Defined.

(** X6.  When the compiler is there and raises, [Build] writes no artifact
    and attempts no copy: the file system stays as the preparation left
    it.  An [ImportError] of the compiler is answered like a missing
    [clr], with the hint to use IronPython and the result [None]; any
    other [Exception] is printed with its traceback and the result is
    [False]; what is no [Exception] leaves [Build] uncaught. *)
Theorem Build_compiler_failure
        tc module_file filename source_folder copy_target export_folder
        w files w1 e :
  let target_folder := dirname module_file ++ export_folder in
  let target_file := path_join target_folder filename in
  Compiler.prepare (dirname module_file ++ source_folder) target_folder w
    = (Ok files, w1) ->
  Compiler.clr_available tc = true ->
  Compiler.CompileModules tc (fs w1) target_file files = Raise e ->
  Compiler.Build tc module_file filename source_folder copy_target
                 export_folder w
  = if is_ImportError e then
      (Ok PyNone,
       {| fs := fs w1;
          console := console w1 ++
            [(nl ++ "BUILD FAILED" ++ nl ++ nl ++
              "Please run the script using IronPython." ++ nl ++
              "Refer docstrings for more information." ++ nl)%string];
          spawned := spawned w1 |})
    else if is_Exception e then
      (Ok (PyBool false),
       {| fs := fs w1;
          console := console w1 ++
            [(nl ++ "BUILD FAILED" ++ nl)%string;
             Compiler.format_exc e; exn_str e];
          spawned := spawned w1 |})
    else (Raise e, w1).
Proof.
  intros target_folder target_file Hp Hclr Hc.
  unfold Compiler.Build. fold target_folder. fold target_file.
  rewrite (bind_ok _ _ _ _ _ Hp).
  assert (Compiler.compile_step tc target_file files w1 = (Raise e, w1)) as Hs.
  { unfold Compiler.compile_step, bind, ret, fs_read. now rewrite Hclr, Hc. }
  unfold try_except. rewrite (bind_raise _ _ _ _ _ Hs).
  destruct (is_ImportError e); [|destruct (is_Exception e)]; try reflexivity.
  unfold bind, print, ret. simpl. now rewrite <- !app_assoc.
Qed.

Lemma Build_compiler_failure_witness :
  fst (Compiler.Build Sample.broken_sources Sample.module_file "plugin.ghpy"
                      ["src"] (JStr "C:\plugins") ["bin"] Sample.world0)
  = Ok (PyBool false).
Proof.
  erewrite (Build_compiler_failure
              Sample.broken_sources Sample.module_file "plugin.ghpy" ["src"]
              (JStr "C:\plugins") ["bin"] Sample.world0).
  2:{ vm_compute. reflexivity. }
  2:{ reflexivity. }
  2:{ reflexivity. }
  reflexivity.
Defined.

(** X7.  Whatever its outcome, [Build] deletes nothing: every path that
    existed before the call exists after it, and every directory is still
    a directory. *)
Theorem Build_deletes_nothing
        tc module_file filename source_folder copy_target export_folder
        w r w' :
  Compiler.Build tc module_file filename source_folder copy_target
                 export_folder w = (r, w') ->
  (forall q, path_exists (fs w) q = true -> path_exists (fs w') q = true) /\
  (forall q, isdir (fs w) q = true -> isdir (fs w') q = true).
Proof.
  intros H. split.
  - apply (BuildMore.Build_paths_stay _ _ _ _ _ _ _ _ _ H).
  - apply (BuildFacts.Build_dirs_stay _ _ _ _ _ _ _ _ _ H).
Qed.

Lemma Build_deletes_nothing_witness :
  isdir (fs (snd (Compiler.Build Sample.ironpython Sample.module_file
                                 "plugin.ghpy" ["src"] (JStr "C:\plugins")
                                 ["bin"] Sample.world0)))
        Sample.package_source = true.
Proof.
  apply (proj2 (Build_deletes_nothing
                  Sample.ironpython Sample.module_file "plugin.ghpy" ["src"]
                  (JStr "C:\plugins") ["bin"] Sample.world0 _ _
                  (surjective_pairing _))).
  reflexivity.
Defined.

(** X8.  [Build] catches every [Exception] of its compile and copy
    stages.  If [Build] raises, then either the preparation raised (the
    export folder could not be made), or the compiler raised something
    that is no [Exception], which passes through with the file system as
    the preparation left it. *)
Theorem Build_raises_only
        tc module_file filename source_folder copy_target export_folder
        w e w' :
  let target_folder := dirname module_file ++ export_folder in
  let target_file := path_join target_folder filename in
  Compiler.Build tc module_file filename source_folder copy_target
                 export_folder w = (Raise e, w') ->
  Compiler.prepare (dirname module_file ++ source_folder) target_folder w
    = (Raise e, w') \/
  (is_Exception e = false /\
   exists files,
     Compiler.prepare (dirname module_file ++ source_folder) target_folder w
       = (Ok files, w') /\
     Compiler.clr_available tc = true /\
     Compiler.CompileModules tc (fs w') target_file files = Raise e).
Proof.
  intros target_folder target_file H.
  unfold Compiler.Build in H. fold target_folder in H. fold target_file in H.
  apply bind_inv in H as [(files & w1 & Hp & H)|(e0 & Hp & Hr)].
  2:{ left. congruence. }
  right. unfold try_except in H.
  destruct (bind (Compiler.compile_step tc target_file files) _ w1)
    as [[v|e0] w2] eqn:Hb; [discriminate|].
  destruct (is_ImportError e0) eqn:Hi;
    [cbv [bind print ret] in H; discriminate|].
  destruct (is_Exception e0) eqn:He;
    [cbv [bind print ret] in H; discriminate|].
  inversion H; subst. clear H.
  apply bind_inv in Hb as [([] & wa & Hc & Hb)|(e0 & Hc & Hr)].
  - apply bind_inv in Hb as [([] & wb & Hk & Hb)|(e0 & Hk & Hr)];
      [discriminate|].
    inversion Hr; subst.
    destruct (BuildFacts.copy_step_raises _ _ _ _ _ Hk) as [[m ->]|[m ->]];
      discriminate.
  - inversion Hr; subst. clear Hr.
    apply BuildMore.compile_step_raises in Hc
      as [-> [[_ ->]|[[Hclr Hc]|[_ [m ->]]]]]; try discriminate.
    split; auto. exists files. auto.
Qed.

Lemma Build_raises_only_witness :
  Compiler.CompileModules
    Sample.interrupted
    (fs (snd (Compiler.Build Sample.interrupted Sample.module_file "plugin.ghpy"
                             ["src"] (JStr "") ["bin"] Sample.world0)))
    ["C:"; "proj"; "grasshopper-plugin"; "bin"; "plugin.ghpy"]
    [["C:"; "proj"; "grasshopper-plugin"; "src"; "component.py"]]
  = Raise KeyboardInterrupt.
Proof.
  destruct (Build_raises_only
              Sample.interrupted Sample.module_file "plugin.ghpy" ["src"]
              (JStr "") ["bin"] Sample.world0 KeyboardInterrupt _
              ltac:(vm_compute; reflexivity))
    as [Hp|(_ & files & Hp & _ & Hc)].
  - vm_compute in Hp. discriminate Hp.
  - reflexivity.
Defined.

(** ** Application *)

Module AppMore.
Import Application.

(** [clear] never fails and leaves the files alone; it runs at most one
    command, [clear] or [cls]. *)
Lemma clear_result os w :
  exists w0,
    clear os w = (Ok tt, w0) /\ fs w0 = fs w /\
    (spawned w0 = spawned w \/ spawned w0 = spawned w ++ ["clear"] \/
     spawned w0 = spawned w ++ ["cls"]).
Proof.
  unfold clear. destruct (String.eqb os "Darwin"); [|destruct (String.eqb os "Windows")];
    eexists; (split; [reflexivity|]); simpl; auto.
Qed.

Lemma contains_path_exists t p name es :
  lookup t p = Some (Dir es) ->
  PyStr.contains (map fst es) name = path_exists t (path_join p name).
Proof.
  intros L. unfold path_exists, path_join. rewrite lookup_app, L. simpl.
  destruct (PyStr.contains (map fst es) name) eqn:C.
  - apply ConfigFacts.assoc_contains in C. now destruct (assoc name es).
  - destruct (assoc name es) eqn:A; auto.
    assert (PyStr.contains (map fst es) name = true) as C'.
    { apply ConfigFacts.assoc_contains. congruence. }
    congruence.
Qed.

(** The settings entry exists: [find_config] reads and never writes. *)
Lemma find_config_existing codec module_file appdata w n :
  lookup (fs w) (path_join (dirname module_file) SETTINGS_FILE) = Some n ->
  find_config codec module_file appdata w
  = (match n with
     | File content =>
         match loads codec content with
         | Some v => Ok (true, v)
         | None => Raise (ValueError "No JSON object could be decoded")
         end
     | Dir _ => Raise (OSError "No such file or directory")
     end, w).
Proof.
  intros L. destruct n as [content|sub].
  - destruct (loads codec content) as [v|] eqn:Hl.
    + now apply ConfigFacts.find_config_present with (content := content).
    + now apply ConfigFacts.find_config_malformed with (content := content).
  - destruct (ConfigFacts.lookup_snoc _ _ _ _ L) as (es & Ld & Ha).
    unfold find_config, os_listdir, open_read, fs_read, listdir, read_file,
      lift, bind.
    rewrite Ld.
    replace (PyStr.contains (map fst es) SETTINGS_FILE) with true.
    2:{ symmetry. apply ConfigFacts.assoc_contains. congruence. }
    simpl. fold (path_join (dirname module_file) SETTINGS_FILE).
    now rewrite L.
Qed.

(** Every outcome of [find_config]. *)
Lemma find_config_cases codec module_file appdata w r w' :
  find_config codec module_file appdata w = (r, w') ->
  let file_path := path_join (dirname module_file) SETTINGS_FILE in
  (isdir (fs w) (dirname module_file) = false /\ w' = w /\
   r = Raise (OSError "Not a directory")) \/
  (isdir (fs w) (dirname module_file) = true /\
   path_exists (fs w) file_path = false /\ r = Ok (false, JObj []) /\
   lookup (fs w') file_path
     = Some (File (dumps codec (SETTINGS_DATA module_file appdata))) /\
   spawned w' = spawned w) \/
  (exists n, lookup (fs w) file_path = Some n /\ w' = w /\
             forall b cfg, r = Ok (b, cfg) -> b = true).
Proof.
  intros H file_path.
  destruct (isdir (fs w) (dirname module_file)) eqn:Hd.
  - destruct (path_exists (fs w) file_path) eqn:He.
    + right. right. unfold path_exists in He.
      destruct (lookup (fs w) file_path) as [n|] eqn:L; [|discriminate].
      rewrite (find_config_existing _ _ _ _ _ L) in H.
      exists n. inversion H; subst. split; auto. split; auto.
      intros b cfg E. destruct n; [destruct (loads codec content)|];
        inversion E; auto.
    + right. left.
      destruct (ConfigFacts.find_config_absent codec module_file appdata w Hd He)
        as (t' & Hw & Hf).
      rewrite Hf in H. inversion H; subst. simpl.
      apply BuildFacts.write_file_lookup in Hw. auto.
  - left. unfold find_config, os_listdir, fs_read, listdir, bind in H.
    unfold isdir in Hd.
    destruct (lookup (fs w) (dirname module_file)) as [[c|es]|];
      try discriminate; inversion H; auto.
Qed.

End AppMore.

(** X9.  Once the settings entry exists, [find_config] never writes: the
    world is left exactly as it was.  A regular file that parses is handed
    back as parsed, with nothing filled in from the defaults, and the
    answer is ready; one that does not parse raises [ValueError]; a
    directory of that name raises the error of [open]. *)
Theorem find_config_existing_untouched codec module_file appdata w n :
  lookup (fs w) (path_join (dirname module_file) Application.SETTINGS_FILE)
    = Some n ->
  Application.find_config codec module_file appdata w
  = (match n with
     | File content =>
         match loads codec content with
         | Some v => Ok (true, v)
         | None => Raise (ValueError "No JSON object could be decoded")
         end
     | Dir _ => Raise (OSError "No such file or directory")
     end, w).
Proof. apply AppMore.find_config_existing. Qed.

(** The sample installation with a settings file that holds [{}]. *)
Lemma find_config_existing_untouched_witness :
  Application.find_config SimpleJson.codec Sample.module_file Sample.appdata
                          Sample.world_empty_settings
  = (Ok (true, JObj []), Sample.world_empty_settings).
Proof.
  apply (find_config_existing_untouched
           SimpleJson.codec Sample.module_file Sample.appdata
           Sample.world_empty_settings (File "{}")).
  reflexivity.
Defined.

(** X10.  When [Application()] succeeds, the settings file exists
    afterwards, and [is_ready] tells whether it existed before.  On a
    first run the settings are empty and the file holds the dumped
    defaults; otherwise the file system is untouched. *)
Theorem init_settings_file codec module_file appdata os w app w' :
  let file_path := path_join (dirname module_file) Application.SETTINGS_FILE in
  Application.init codec module_file appdata os w = (Ok app, w') ->
  Application.is_ready app = path_exists (fs w) file_path /\
  path_exists (fs w') file_path = true /\
  (Application.is_ready app = false ->
   Application.config_data app = JObj [] /\
   lookup (fs w') file_path
     = Some (File (dumps codec (Application.SETTINGS_DATA module_file appdata)))) /\
  (Application.is_ready app = true -> fs w' = fs w).
Proof.
  intros file_path H. subst file_path. unfold Application.init in H.
  destruct (AppMore.clear_result os w) as (w0 & Hc & Hfs & _).
  rewrite (bind_ok _ _ _ _ _ Hc) in H.
  apply bind_inv in H as [([b cfg] & w1 & Hf & H)|(e & _ & Hr)]; [|discriminate].
  inversion H; subst. clear H. simpl.
  apply AppMore.find_config_cases in Hf as
      [(_ & _ & Hr)|[(Hd & He & Hr & L & _)|(n & L & -> & Hb)]];
    [discriminate| |]; rewrite Hfs in *.
  - inversion Hr; subst. rewrite He. unfold path_exists. rewrite L.
    repeat split; auto. discriminate.
  - rewrite (Hb b cfg eq_refl). unfold path_exists. rewrite L.
    repeat split; auto; discriminate.
Qed.

Lemma init_settings_file_witness :
  path_exists
    (fs (snd (Application.init SimpleJson.codec Sample.module_file
                               Sample.appdata "Windows" Sample.world0)))
    ["C:"; "proj"; "grasshopper-plugin"; "maghpy_settings.json"] = true.
Proof.
  refine (proj1 (proj2 (init_settings_file
                          SimpleJson.codec Sample.module_file Sample.appdata
                          "Windows" Sample.world0
                          {| Application.OS := "Windows";
                             Application.is_ready := false;
                             Application.config_data := JObj [] |} _ _))).
  vm_compute. reflexivity.
Defined.

(** X11.  The script run as [__main__] on a first run, in a directory
    without settings file: the defaults are written, and then [build]
    fails on the empty settings with [KeyError] for [IRONPYTHONPATH]; no
    build command is started. *)
Theorem main_first_run codec module_file appdata subprocess_result os w :
  let file_path := path_join (dirname module_file) Application.SETTINGS_FILE in
  isdir (fs w) (dirname module_file) = true ->
  path_exists (fs w) file_path = false ->
  exists w',
    Application.main codec module_file appdata subprocess_result os w
      = (Raise (KeyError "IRONPYTHONPATH"), w') /\
    lookup (fs w') file_path
      = Some (File (dumps codec (Application.SETTINGS_DATA module_file appdata))) /\
    (spawned w' = spawned w \/ spawned w' = spawned w ++ ["clear"] \/
     spawned w' = spawned w ++ ["cls"]).
Proof.
  intros file_path Hd He. subst file_path.
  destruct (AppMore.clear_result os w) as (w0 & Hc & Hfs & Hsp).
  rewrite <- Hfs in Hd, He.
  destruct (ConfigFacts.find_config_absent codec module_file appdata w0 Hd He)
    as (t' & Hw & Hf).
  eexists. split; [|split].
  - unfold Application.main.
    erewrite bind_ok.
    2:{ unfold Application.init. rewrite (bind_ok _ _ _ _ _ Hc).
        rewrite (bind_ok _ _ _ _ _ Hf). reflexivity. }
    reflexivity.
  - simpl. now apply BuildFacts.write_file_lookup in Hw.
  - exact Hsp.
Qed.

Lemma main_first_run_witness :
  fst (Application.main SimpleJson.codec Sample.module_file Sample.appdata
                        Sample.subprocess_result "Linux" Sample.world0)
  = Raise (KeyError "IRONPYTHONPATH").
Proof.
  destruct (main_first_run SimpleJson.codec Sample.module_file Sample.appdata
                           Sample.subprocess_result "Linux" Sample.world0)
    as (w' & H & _).
  - reflexivity.
  - reflexivity.
  - now rewrite H.
Defined.





(** X14.  When the shared package [python-package/src/tapir_py] is
    missing, [compile_plugin] reports the failure and returns [None]:
    nothing is staged, built or removed, and the settings are not even
    read. *)
Theorem compile_plugin_missing_package tc module_file self now w :
  let root := dirname (dirname module_file) in
  path_exists (fs w) (root ++ ["python-package"; "src"; "tapir_py"]) = false ->
  Application.compile_plugin tc module_file self now w
  = (Ok PyNone,
     {| fs := fs w;
        console := console w ++
          [(esc ++ "[31m" ++ "<ERROR> " ++ esc ++ "[0m" ++
            "Build Failed. 'tapir_py' package not found.")%string];
        spawned := spawned w |}).
Proof.
  intros root He. unfold Application.compile_plugin. fold root.
  unfold bind, os_path_exists, fs_read. now rewrite He.
Qed.

Lemma compile_plugin_missing_package_witness :
  fst (Application.compile_plugin Sample.ironpython Sample.module_file
                                  Sample.app_ready midnight
                                  Sample.world_ready) = Ok PyNone.
Proof.
  rewrite (compile_plugin_missing_package
             Sample.ironpython Sample.module_file Sample.app_ready midnight
             Sample.world_ready); reflexivity.
Defined.

(** X15.  [compile_plugin] drops the verdict of [Build]: whenever it
    returns, it returns [None], whether the build succeeded or failed;
    and if the shared package was there, the staged copy is gone by
    then. *)
Theorem compile_plugin_returns_None tc module_file self now w v w' :
  let root := dirname (dirname module_file) in
  Application.compile_plugin tc module_file self now w = (Ok v, w') ->
  v = PyNone /\
  (path_exists (fs w) (root ++ ["python-package"; "src"; "tapir_py"]) = true ->
   path_exists (fs w') (root ++ ["grasshopper-plugin"; "src"; "tapir_py"])
     = false).
Proof.
  intros root H. unfold Application.compile_plugin in H. fold root in H.
  apply bind_inv in H as [(present & w0 & Hp & H)|(e & _ & Hr)]; [|discriminate].
  unfold os_path_exists, fs_read in Hp. inversion Hp; subst. clear Hp.
  destruct (path_exists (fs w0) (root ++ ["python-package"; "src"; "tapir_py"]))
    eqn:He.
  - apply bind_inv in H as [([] & w1 & Hs & H)|(e & _ & Hr)]; [|discriminate].
    apply bind_inv in H as [(ct & w2 & Hk & H)|(e & _ & Hr)]; [|discriminate].
    apply bind_inv in H as [(b & w3 & Hb & H)|(e & _ & Hr)]; [|discriminate].
    apply bind_inv in H as [([] & w4 & Hrm & H)|(e & _ & Hr)]; [|discriminate].
    inversion H; subst. split; auto. intros _.
    unfold shutil_rmtree, fs_update in Hrm.
    destruct (rmtree (fs w3) (root ++ ["grasshopper-plugin"; "src"; "tapir_py"]))
      as [t'|] eqn:R; [|discriminate].
    inversion Hrm; subst. simpl.
    unfold rmtree in R. destruct (isdir (fs w3) _); [|discriminate].
    destruct (remove (fs w3) _) as [x|] eqn:Rm; [|discriminate].
    inversion R; subst. unfold path_exists.
    now rewrite (lookup_remove_same _ _ _ Rm).
  - cbn [Application.show Application.ansi_colors assoc String.eqb Ascii.eqb
         Bool.eqb] in H.
    unfold bind, print, ret in H. inversion H; subst.
    split; [reflexivity | discriminate].
Qed.

(** A build that fails for lack of [clr], on the sample installation. *)
Lemma compile_plugin_returns_None_witness :
  fst (Application.compile_plugin Sample.cpython Sample.module_file
                                  Sample.app_ready midnight Sample.world0)
    = Ok PyNone /\
  path_exists
    (fs (snd (Application.compile_plugin Sample.cpython Sample.module_file
                                         Sample.app_ready midnight
                                         Sample.world0)))
    Sample.package_target = false.
Proof.
  destruct (Application.compile_plugin Sample.cpython Sample.module_file
                                       Sample.app_ready midnight Sample.world0)
    as [r w'] eqn:E.
  assert (r = Ok PyNone) as ->.
  { vm_compute in E. now inversion E. }
  destruct (compile_plugin_returns_None _ _ _ _ _ _ _ E) as [_ H].
  split; [reflexivity|]. apply H. reflexivity.
Defined.

(** ** The artifact name, again *)

Section PackageNameShape.

Lemma length_append (a b : string) :
  String.length (a ++ b) = String.length a + String.length b.
Proof. induction a; simpl; auto. Qed.

Lemma append_nil_r (a : string) : (a ++ "")%string = a.
Proof. induction a; simpl; congruence. Qed.

Lemma append_snoc (a : string) c (b : string) :
  ((a ++ String c "") ++ b)%string = (a ++ String c b)%string.
Proof. induction a; simpl; congruence. Qed.

Lemma has_separator_append (a b : string) :
  has_separator (a ++ b) = has_separator a || has_separator b.
Proof.
  induction a as [|c a IH]; simpl; auto. rewrite IH. now rewrite orb_assoc.
Qed.

Lemma split_path_no_separator s : forall cur,
  has_separator s = false ->
  split_path s cur =
  match (cur ++ s)%string with EmptyString => [] | x => [x] end.
Proof.
  induction s as [|c s IH]; intros cur H; simpl in *.
  - rewrite append_nil_r. destruct cur; reflexivity.
  - apply orb_false_iff in H as [H1 H2]. rewrite H1.
    rewrite (IH _ H2), append_snoc. reflexivity.
Qed.

Lemma endswith_cons c s suffix :
  String.length suffix <= String.length s ->
  PyStr.endswith (String c s) suffix = PyStr.endswith s suffix.
Proof.
  intros H. unfold PyStr.endswith. cbn [String.length].
  replace (S (String.length s) - String.length suffix)
    with (S (String.length s - String.length suffix)) by lia.
  cbn [substring].
  replace (String.length suffix <=? S (String.length s)) with true
    by (symmetry; apply Nat.leb_le; lia).
  replace (String.length suffix <=? String.length s) with true
    by (symmetry; apply Nat.leb_le; lia).
  reflexivity.
Qed.

Lemma endswith_append a b suffix :
  String.length suffix <= String.length b ->
  PyStr.endswith (a ++ b) suffix = PyStr.endswith b suffix.
Proof.
  intros H. induction a as [|c a IH]; simpl; auto.
  rewrite endswith_cons; auto. rewrite length_append. lia.
Qed.

Lemma digit_no_separator d :
  d < 10 -> has_separator (String (digit d) "") = false.
Proof.
  intros H. do 10 (destruct d as [|d]; [reflexivity|]). lia.
Qed.

Lemma pad2_no_separator n : n < 100 -> has_separator (pad2 n) = false.
Proof.
  intros H. unfold pad2.
  change (String (digit (n / 10)) (String (digit (n mod 10)) ""))
    with (String (digit (n / 10)) "" ++ String (digit (n mod 10)) "")%string.
  rewrite has_separator_append, !digit_no_separator; auto.
  - apply Nat.mod_upper_bound. lia.
  - apply Nat.Div0.div_lt_upper_bound. lia.
Qed.

Lemma month_abbr_no_separator m :
  1 <= m <= 12 -> has_separator (month_abbr m) = false.
Proof.
  intros H.
  assert (m = 1 \/ m = 2 \/ m = 3 \/ m = 4 \/ m = 5 \/ m = 6 \/
          m = 7 \/ m = 8 \/ m = 9 \/ m = 10 \/ m = 11 \/ m = 12) as E by lia.
  repeat (destruct E as [E|E]); subst m; reflexivity.
Qed.

End PackageNameShape.

(** X16.  For every reading of the clock the artifact name is a plain
    file name: 34 characters long, ending in [.ghpy] and free of path
    separators, so that it names one entry of the export folder. *)
Theorem package_name_is_file_name t :
  valid_datetime t ->
  String.length (strftime package_name_format t) = 34 /\
  PyStr.endswith (strftime package_name_format t) ".ghpy" = true /\
  os_path (strftime package_name_format t) = [strftime package_name_format t].
Proof.
  intros (Hy & Hm & Hd & Hh & Hi & Hs & _).
  assert (has_separator (strftime package_name_format t) = false) as Hsep.
  { rewrite package_name_eq. unfold pad4.
    rewrite !has_separator_append.
    rewrite !pad2_no_separator
      by first [ lia
               | apply Nat.mod_upper_bound; lia
               | apply Nat.Div0.div_lt_upper_bound; lia ].
    rewrite month_abbr_no_separator by lia. reflexivity. }
  split; [|split].
  - rewrite package_name_eq. unfold pad4.
    rewrite !length_append, month_abbr_length by auto. reflexivity.
  - rewrite package_name_eq.
    repeat (rewrite endswith_append; [|repeat rewrite length_append; simpl; lia]).
    reflexivity.
  - unfold os_path. rewrite (split_path_no_separator _ "" Hsep).
    rewrite package_name_eq. reflexivity.
Qed.

Lemma package_name_is_file_name_witness :
  os_path (strftime package_name_format midnight)
  = ["tapir_gh_2024_Jan_01-00_00_00.ghpy"].
Proof.
  assert (valid_datetime midnight) as V.
  { unfold valid_datetime, midnight.
    cbn [year month day hour minute second microsecond]. repeat split; lia. }
  rewrite (proj2 (proj2 (package_name_is_file_name midnight V))).
  reflexivity.
Defined.

(** ** Staging and collecting *)

Module StagingMore.
Import Compiler.

Lemma copy_tree_node_dir ses dst :
  copy_tree_node (Dir ses) dst =
  match dst with
  | Some (File _) => Raise (DistutilsFileError "could not create: File exists")
  | _ => copy_entries ses (match dst with Some (Dir l) => l | _ => [] end)
  end.
Proof.
  simpl. destruct dst as [[c|des]|]; reflexivity.
Qed.

(** The loop keeps every name it has gathered and gathers every name of
    the listing. *)
Lemma copy_entries_names l : forall acc n,
  copy_entries l acc = Ok n ->
  exists des, n = Dir des /\
    (forall k, assoc k acc <> None -> assoc k des <> None) /\
    (forall k, In k (map fst l) -> assoc k des <> None).
Proof.
  induction l as [|[k x] l IH]; intros acc n H; simpl in H.
  - inversion H; subst. exists acc. repeat split; auto.
  - destruct (match x with
              | File content => copy_file_node content k (assoc k acc)
              | Dir _ => copy_tree_node x (assoc k acc)
              end) as [new|e]; [|discriminate].
    destruct (IH _ _ H) as (des & -> & Hacc & Hl).
    exists des. repeat split.
    + intros k' Hk'. apply Hacc.
      destruct (String.eqb k' k) eqn:E.
      * apply String.eqb_eq in E. subst k'. rewrite assoc_set_entry_same.
        discriminate.
      * now rewrite assoc_set_entry_other.
    + intros k' [<-|Hin]; auto. apply Hacc. simpl.
      rewrite assoc_set_entry_same. discriminate.
Qed.

Lemma copy_tree_names t src dst t' ses :
  copy_tree t src dst = Ok t' ->
  lookup t src = Some (Dir ses) ->
  exists des, lookup t' dst = Some (Dir des) /\
              forall k, In k (map fst ses) -> assoc k des <> None.
Proof.
  unfold copy_tree. intros H L. rewrite L in H.
  destruct (copy_tree_node (Dir ses) (lookup t dst)) as [n|] eqn:C;
    [|discriminate].
  destruct (install t dst n) as [x|] eqn:I; [|discriminate].
  inversion H; subst. rewrite (lookup_install_same _ _ _ _ I).
  rewrite copy_tree_node_dir in C.
  destruct (lookup t dst) as [[c|l]|]; try discriminate;
    apply copy_entries_names in C as (des & -> & _ & Hl); eauto.
Qed.

(** What [prepare] hands on: the files collected once the export folder
    is there. *)
Lemma prepare_collects source_folder target_folder w files w1 :
  prepare source_folder target_folder w = (Ok files, w1) ->
  files = collect_files (fs w1) source_folder /\
  (fs w1 = fs w \/ makedirs (fs w) target_folder = Ok (fs w1)).
Proof.
  unfold prepare. intros H. BuildFacts.unfold_monad_in H.
  destruct (negb (path_exists (fs w) target_folder)).
  - destruct (makedirs (fs w) target_folder) as [t'|] eqn:Hm; [|discriminate].
    simpl in H. inversion H; subst. simpl. auto.
  - simpl in H. inversion H; subst. simpl. auto.
Qed.

Lemma makedirs_sibling t p a b t' :
  makedirs t (p ++ [a]) = Ok t' -> String.eqb a b = false ->
  lookup t' (p ++ [b]) = lookup t (p ++ [b]).
Proof.
  unfold makedirs. intros H Hab.
  destruct (path_exists t (p ++ [a])); [discriminate|].
  destruct (install t (p ++ [a]) (Dir [])) as [x|] eqn:I; [|discriminate].
  inversion H; subst.
  apply (lookup_install_other _ _ _ _ _ I);
    rewrite PluginFacts.prefix_of_app_both; simpl.
  - now rewrite Hab.
  - now rewrite String.eqb_sym, Hab.
Qed.

End StagingMore.



(** ** The footprint of Build *)

Section BuildFootprint.

Variable R : node -> node -> Prop.
Hypothesis R_refl : forall t, R t t.
Hypothesis R_trans : forall t1 t2 t3, R t1 t2 -> R t2 t3 -> R t1 t3.

Variable tc : Compiler.toolchain.
Variables (module_file : path) (filename : string) (source_folder : path)
          (copy_target : json) (export_folder : path).

Let target_folder := dirname module_file ++ export_folder.
Let target_file := path_join target_folder filename.

Hypothesis R_export : forall t t', makedirs t target_folder = Ok t' -> R t t'.
Hypothesis R_artifact :
  forall t content t', write_file t target_file content = Ok t' -> R t t'.
Hypothesis R_copy_folder :
  forall s t t',
    copy_target = JStr s -> truthy copy_target = true ->
    makedirs t (os_path s) = Ok t' -> R t t'.
Hypothesis R_copy :
  forall s t t',
    copy_target = JStr s -> truthy copy_target = true ->
    copy2 t target_file (os_path s) = Ok t' -> R t t'.

Lemma prepare_keeps :
  keeps R (Compiler.prepare (dirname module_file ++ source_folder) target_folder).
Proof.
  unfold Compiler.prepare, os_path_exists, os_makedirs.
  BuildFacts.keeps_steps R_refl R_trans.
  apply (keeps_fs_update _ R_refl). exact R_export.
Qed.

Lemma compile_step_keeps files :
  keeps R (Compiler.compile_step tc target_file files).
Proof.
  unfold Compiler.compile_step, open_write.
  BuildFacts.keeps_steps R_refl R_trans.
  apply (keeps_fs_update _ R_refl). intros t t'. apply R_artifact.
Qed.

Lemma copy_step_keeps : keeps R (Compiler.copy_step target_file copy_target).
Proof.
  unfold Compiler.copy_step, os_path_exists, os_makedirs, shutil_copy2.
  destruct (truthy copy_target) eqn:T; [|apply (keeps_ret _ R_refl)].
  destruct copy_target eqn:C; try apply (keeps_raise _ R_refl).
  BuildFacts.keeps_steps R_refl R_trans.
  - apply (keeps_fs_update _ R_refl). intros t t'. now apply R_copy_folder.
  - apply (keeps_fs_update _ R_refl). intros t t'. now apply R_copy.
Qed.

(** From the end of the preparation to the end of [Build]. *)
Lemma Build_after_prepare_keeps w files w1 r w' :
  Compiler.prepare (dirname module_file ++ source_folder) target_folder w
    = (Ok files, w1) ->
  Compiler.Build tc module_file filename source_folder copy_target
                 export_folder w = (r, w') ->
  R (fs w1) (fs w').
Proof.
  intros Hp H. unfold Compiler.Build in H.
  fold target_folder in H. fold target_file in H.
  rewrite (bind_ok _ _ _ _ _ Hp) in H. revert H.
  apply (keeps_try_except _ R_trans).
  - apply (keeps_bind _ R_trans); [apply compile_step_keeps|].
    intros _. apply (keeps_bind _ R_trans); [apply copy_step_keeps|].
    intros _. apply (keeps_ret _ R_refl).
  - intros e h H. destruct (is_ImportError e); [|destruct (is_Exception e)];
      inversion H; subst; BuildFacts.keeps_steps R_refl R_trans.
Qed.

Lemma Build_keeps :
  keeps R (Compiler.Build tc module_file filename source_folder copy_target
                          export_folder).
Proof.
  intros w r w' H.
  destruct (Compiler.prepare (dirname module_file ++ source_folder)
                             target_folder w) as [[files|e] w1] eqn:Hp.
  - eapply R_trans; [apply (prepare_keeps _ _ _ Hp)|].
    eapply Build_after_prepare_keeps; eauto.
  - unfold Compiler.Build in H. fold target_folder in H.
    rewrite (bind_raise _ _ _ _ _ Hp) in H. inversion H; subst.
    apply (prepare_keeps _ _ _ Hp).
Qed.

End BuildFootprint.

Section PathFacts.

Lemma prefix_of_app_l p r q : prefix_of (p ++ r) q = true -> prefix_of p q = true.
Proof.
  intros H. apply prefix_of_inv in H as [s ->]. rewrite <- app_assoc.
  apply prefix_of_app.
Qed.

Lemma disjoint_child p c q : disjoint p q = true -> disjoint (p ++ [c]) q = true.
Proof.
  unfold disjoint. intros H. apply andb_true_iff in H as [H1 H2].
  apply negb_true_iff in H1, H2. apply andb_true_iff. split; apply negb_true_iff.
  - destruct (prefix_of (p ++ [c]) q) eqn:E; auto.
    apply prefix_of_app_l in E. congruence.
  - destruct (prefix_of q (p ++ [c])) eqn:E; auto.
    apply prefix_of_inv in E as [r E].
    destruct r as [|x r] using rev_ind.
    + rewrite app_nil_r in E. subst q. rewrite prefix_of_app in H1. discriminate.
    + rewrite app_assoc in E. apply app_inj_tail in E as [-> _].
      rewrite prefix_of_app in H2. discriminate.
Qed.

Lemma install_same_at t p n t' q :
  install t p n = Some t' -> disjoint p q = true -> same_at q t t'.
Proof.
  unfold disjoint, same_at. intros I D. apply andb_true_iff in D as [D1 D2].
  apply negb_true_iff in D1, D2. eapply lookup_install_other; eauto.
Qed.

Lemma makedirs_same_at t p t' q :
  makedirs t p = Ok t' -> disjoint p q = true -> same_at q t t'.
Proof.
  unfold makedirs. destruct (path_exists t p); [discriminate|].
  destruct (install t p (Dir [])) as [x|] eqn:I; [|discriminate].
  intros H D. inversion H; subst. eapply install_same_at; eauto.
Qed.

Lemma write_file_same_at t p content t' q :
  write_file t p content = Ok t' -> disjoint p q = true -> same_at q t t'.
Proof.
  unfold write_file. destruct p as [|c p]; [discriminate|].
  destruct (_ && _); [|discriminate].
  destruct (install t (c :: p) _) as [x|] eqn:I; [|discriminate].
  intros H D. inversion H; subst. eapply install_same_at; eauto.
Qed.

Lemma copy2_same_at t src dst t' q :
  copy2 t src dst = Ok t' -> disjoint dst q = true -> same_at q t t'.
Proof.
  unfold copy2. destruct (_ && _); [discriminate|].
  destruct (read_file t src); [|discriminate].
  intros H D. destruct (isdir t dst).
  - eapply write_file_same_at; eauto. now apply disjoint_child.
  - eapply write_file_same_at; eauto.
Qed.

End PathFacts.



(** X19.  Whenever [Build] returns, with [True], [False] or [None], the
    export folder is there; when it was missing before the call, it is a
    directory now, also after a failed build. *)
Theorem Build_leaves_export_folder
        tc module_file filename source_folder copy_target export_folder
        w v w' :
  let target_folder := dirname module_file ++ export_folder in
  Compiler.Build tc module_file filename source_folder copy_target
                 export_folder w = (Ok v, w') ->
  path_exists (fs w') target_folder = true /\
  (path_exists (fs w) target_folder = false ->
   isdir (fs w') target_folder = true).
Proof.
  intros target_folder H.
  destruct (Compiler.prepare (dirname module_file ++ source_folder)
                             target_folder w) as [[files|e] w1] eqn:Hp.
  2:{ unfold Compiler.Build in H. fold target_folder in H.
      rewrite (bind_raise _ _ _ _ _ Hp) in H. discriminate. }
  assert (path_exists (fs w1) target_folder = true /\
          (path_exists (fs w) target_folder = false ->
           isdir (fs w1) target_folder = true)) as [He Hd].
  { pose proof Hp as Hp'. unfold Compiler.prepare in Hp'.
    BuildFacts.unfold_monad_in Hp'.
    destruct (path_exists (fs w) target_folder) eqn:E; simpl in Hp'.
    - inversion Hp'; subst. simpl. rewrite E. split; [reflexivity | discriminate].
    - destruct (makedirs (fs w) target_folder) as [t'|] eqn:Hm; [|discriminate].
      simpl in Hp'. inversion Hp'; subst. simpl.
      unfold makedirs in Hm. rewrite E in Hm.
      destruct (install (fs w) target_folder (Dir [])) as [x|] eqn:I;
        [|discriminate].
      inversion Hm; subst. unfold path_exists, isdir.
      rewrite (lookup_install_same _ _ _ _ I). auto. }
  split.
  - revert He.
    apply (Build_after_prepare_keeps
             paths_stay BuildMore.paths_stay_refl BuildMore.paths_stay_trans
             tc module_file filename source_folder copy_target export_folder)
      with (w := w) (files := files) (r := Ok v); auto.
    + intros t content t'. apply BuildMore.write_file_paths_stay.
    + intros s t t' _ _. apply BuildMore.makedirs_paths_stay.
    + intros s t t' _ _. apply BuildMore.copy2_paths_stay.
  - intros E. specialize (Hd E). revert Hd.
    apply (Build_after_prepare_keeps
             dirs_stay dirs_stay_refl dirs_stay_trans
             tc module_file filename source_folder copy_target export_folder)
      with (w := w) (files := files) (r := Ok v); auto.
    + intros t content t'. apply write_file_dirs_stay.
    + intros s t t' _ _. apply makedirs_dirs_stay.
    + intros s t t' _ _. apply copy2_dirs_stay.
Qed.

Lemma Build_leaves_export_folder_witness :
  isdir (fs (snd (Compiler.Build Sample.cpython Sample.module_file
                                 "plugin.ghpy" ["src"] (JStr "") ["bin"]
                                 Sample.world0)))
        ["C:"; "proj"; "grasshopper-plugin"; "bin"] = true.
Proof.
  apply (proj2 (Build_leaves_export_folder
                  Sample.cpython Sample.module_file "plugin.ghpy" ["src"]
                  (JStr "") ["bin"] Sample.world0 PyNone _
                  ltac:(vm_compute; reflexivity))).
  reflexivity.
Defined.

(** ** More on the footprint *)

Module FootprintMore.
Import Application.

Lemma rmtree_same_at t p t' q :
  rmtree t p = Ok t' -> disjoint p q = true -> same_at q t t'.
Proof.
  unfold rmtree, same_at, disjoint. destruct (isdir t p); [|discriminate].
  destruct (remove t p) as [x|] eqn:Rm; [|discriminate].
  intros H D. inversion H; subst. apply andb_true_iff in D as [D1 D2].
  apply negb_true_iff in D1, D2. eapply lookup_remove_other; eauto.
Qed.

Lemma copy_tree_same_at t src dst t' q :
  copy_tree t src dst = Ok t' -> disjoint dst q = true -> same_at q t t'.
Proof.
  intros H D. apply PluginFacts.copy_tree_result in H as [_ H]. now apply H.
Qed.

Lemma Build_same_at tc module_file filename source_folder copy_target
      export_folder q :
  disjoint (dirname module_file ++ export_folder) q = true ->
  (forall s, copy_target = JStr s -> truthy copy_target = true ->
             disjoint (os_path s) q = true) ->
  keeps (same_at q)
        (Compiler.Build tc module_file filename source_folder copy_target
                        export_folder).
Proof.
  intros D Dc.
  apply (Build_keeps (same_at q) (same_at_refl q) (same_at_trans q)).
  - intros t t' Hm. eapply makedirs_same_at; eauto.
  - intros t content t' Hw. eapply write_file_same_at; eauto.
    now apply disjoint_child.
  - intros s t t' E T Hm. eapply makedirs_same_at; eauto.
  - intros s t t' E T Hc. eapply copy2_same_at; eauto.
Qed.

(** A [Build] that returns [True] has gone through its three stages. *)
Lemma Build_True_stages tc module_file filename source_folder copy_target
      export_folder w w' :
  Compiler.Build tc module_file filename source_folder copy_target
                 export_folder w = (Ok (PyBool true), w') ->
  exists files w1 w2,
    Compiler.prepare (dirname module_file ++ source_folder)
                     (dirname module_file ++ export_folder) w = (Ok files, w1) /\
    Compiler.compile_step
      tc (path_join (dirname module_file ++ export_folder) filename) files w1
      = (Ok tt, w2) /\
    Compiler.copy_step
      (path_join (dirname module_file ++ export_folder) filename) copy_target w2
      = (Ok tt, w').
Proof.
  intros H. unfold Compiler.Build in H.
  apply bind_inv in H as [(files & w1 & Hp & H)|(e & _ & Hr)]; [|discriminate].
  unfold try_except in H.
  match type of H with
  | context [match ?b w1 with _ => _ end] => destruct (b w1) as [[v|e] w2] eqn:Hb
  end.
  - inversion H; subst. clear H.
    apply bind_inv in Hb as [([] & wa & Hc & Hb)|(e & _ & Hr)]; [|discriminate].
    apply bind_inv in Hb as [([] & wb & Hk & Hb)|(e & _ & Hr)]; [|discriminate].
    inversion Hb; subst. eauto 6.
  - destruct (is_ImportError e); [|destruct (is_Exception e)];
      cbv [bind print ret] in H; inversion H.
Qed.

End FootprintMore.

(** X20.  [find_config] starts no command and touches no path apart from
    the settings file: whatever its outcome, every path that lies apart
    from the settings file holds what it held before. *)
Theorem find_config_touches_only_settings
        codec module_file appdata w r w' q :
  Application.find_config codec module_file appdata w = (r, w') ->
  spawned w' = spawned w /\
  (disjoint (path_join (dirname module_file) Application.SETTINGS_FILE) q = true ->
   lookup (fs w') q = lookup (fs w) q).
Proof.
  intros H.
  destruct (isdir (fs w) (dirname module_file)) eqn:Hd.
  - destruct (path_exists (fs w)
                (path_join (dirname module_file) Application.SETTINGS_FILE))
      eqn:He.
    + unfold path_exists in He.
      destruct (lookup (fs w)
                  (path_join (dirname module_file) Application.SETTINGS_FILE))
        as [n|] eqn:L; [|discriminate].
      rewrite (AppMore.find_config_existing _ _ _ _ _ L) in H.
      inversion H; subst. auto.
    + destruct (ConfigFacts.find_config_absent codec module_file appdata w Hd He)
        as (t' & Hw & Hf).
      rewrite Hf in H. inversion H; subst. simpl. split; auto.
      intros D. eapply write_file_same_at; eauto.
  - apply AppMore.find_config_cases in H
      as [(_ & -> & _)|[(Hd' & _)|(n & L & -> & _)]]; auto.
    congruence.
Qed.

Lemma find_config_touches_only_settings_witness :
  lookup (fs (snd (Application.find_config SimpleJson.codec Sample.module_file
                                           Sample.appdata Sample.world0)))
         Sample.package_source
  = Some (Dir [("core.py", File "pass")]).
Proof.
  rewrite (proj2 (find_config_touches_only_settings
                    SimpleJson.codec Sample.module_file Sample.appdata
                    Sample.world0 _ _ Sample.package_source
                    (surjective_pairing _))); reflexivity.
Defined.



(** X22.  When the copy target is the export folder itself, as it is with
    the default [BUILDPATH] that the first run writes, [Build] never
    returns [True]: after a successful compilation the artifact would be
    copied onto itself, which [copy2] refuses. *)
Theorem Build_onto_export_folder_never_True
        tc module_file filename source_folder export_folder s w w' :
  s <> ""%string ->
  os_path s = dirname module_file ++ export_folder ->
  Compiler.Build tc module_file filename source_folder (JStr s)
                 export_folder w <> (Ok (PyBool true), w').
Proof.
  intros Hs Ho H.
  apply FootprintMore.Build_True_stages in H
    as (files & w1 & w2 & _ & Hc & Hk).
  apply BuildFacts.compile_step_artifact in Hc as (_ & content & _ & L).
  destruct (ConfigFacts.lookup_snoc _ _ _ _ L) as (es & Ld & Ha).
  unfold Compiler.copy_step in Hk.
  assert (truthy (JStr s) = true) as T by (destruct s; [congruence | reflexivity]).
  rewrite T, Ho in Hk.
  unfold bind, os_path_exists, os_makedirs, shutil_copy2, fs_read, fs_update,
    ret in Hk.
  unfold path_exists at 1 in Hk. rewrite Ld in Hk. simpl in Hk.
  unfold copy2, isdir in Hk. rewrite Ld in Hk. simpl in Hk.
  assert (basename (path_join (dirname module_file ++ export_folder) filename)
          = filename) as Hb by (unfold basename, path_join; apply last_last).
  rewrite Hb in Hk.
  replace (path_eqb (path_join (dirname module_file ++ export_folder) filename)
                    (path_join (dirname module_file ++ export_folder) filename))
    with true in Hk by (symmetry; now apply path_eqb_eq).
  unfold path_exists in Hk. rewrite L in Hk. simpl in Hk. discriminate.
Qed.

Lemma Build_onto_export_folder_never_True_witness :
  Compiler.Build Sample.ironpython Sample.module_file "plugin.ghpy" ["src"]
                 (JStr "C:\proj\grasshopper-plugin\bin") ["bin"] Sample.world0
  <> (Ok (PyBool true), Sample.world0).
Proof.
  apply (Build_onto_export_folder_never_True
           Sample.ironpython Sample.module_file "plugin.ghpy" ["src"] ["bin"]
           "C:\proj\grasshopper-plugin\bin" Sample.world0 Sample.world0).
  - discriminate.
  - reflexivity.
Defined.
